(** * The order ETL pipeline: extract, validate, transform, load, aggregate

    A shallow embedding of [src/etl_pipeline.py] and [src/analytics.py].

    - What [json.loads] returns for a line is a [json] value: an order
      object of the data model, or any other value.  An order object is a
      [record]: the five order fields, each either absent from the object,
      present with [null], or present with a value of the type the data
      model gives it (strings for [order_id], [category] and [timestamp], an
      integer for [user_id], a number for [amount]).  Keys other than these
      five are never read by the pipeline and are projected away at the end
      of the transform, so they are not represented.  Any other value (a
      number, a list, [null], an object with a value of another type) is
      [Foreign]: the Extractor counts it as a row like any other, and what
      pandas makes of it afterwards is not modelled; the properties of a
      run are stated for input whose decoded lines are order objects.
    - A pandas [DataFrame] is its set of column names together with its rows;
      every row carries the index label pandas gave it when the frame was
      built, and keeps it through every filter.
    - Amounts are exact rationals.  The program compares them with zero and
      hands them to the engine; it does no arithmetic of its own on them.
    - [print], [sys.exit] and Python exceptions are explicit: a computation
      yields the events it produced, in order, and how it ended.  The three
      lines of a phase banner are one event.
    - The two library calls whose results depend on text, [json.loads] and
      [pd.to_datetime], are parameters of the development, as are the file
      system and the query engine; the engine alone decides what a query
      returns.  A small decoder and an ISO parser instantiate the first two
      in the examples. *)

From Stdlib Require Import ZArith QArith Qround Ascii Lia.
From stdpp Require Import base option list gmap strings pretty sorting.

Local Open Scope string_scope.
Local Open Scope list_scope.

(** ** Cells, rows and frames *)

(** [pd.Timestamp], by its calendar fields. *)
Record datetime := Datetime {
  year : nat; month : nat; day : nat;
  hour : nat; minute : nat; second : nat
}.

(** One key of a decoded JSON object. *)
Inductive jfield (A : Type) : Type :=
| Absent
| Present (v : option A).
Arguments Absent {A}.
Arguments Present {A} v.

(** A decoded line: what [json.loads] returns for an order object. *)
Record record := Record_ {
  j_order_id : jfield string;
  j_user_id : jfield Z;
  j_category : jfield string;
  j_amount : jfield Q;
  j_timestamp : jfield string
}.

(** What [json.loads] returns for a line it accepts. *)
Inductive json :=
| Order (r : record)
| Foreign.

Definition order_of (v : json) : option record :=
  match v with Order r => Some r | Foreign => None end.

(** The rows as records, when every one of them is an order object. *)
Definition orders (rows : list json) : option (list record) :=
  mapM order_of rows.

(** A cell of the [order_id] column.  In a column that holds strings, pandas
    keeps a JSON null ([None]) apart from the NaN it puts where a record has
    no such key, and [duplicated] compares the two as different values. *)
Inductive order_key := KeyNaN | KeyNone | Key (s : string).

#[global] Instance order_key_eq_dec : EqDecision order_key.
Proof. solve_decision. Defined.

(** A frame row.  In the other columns [None] is pandas' missing value
    (None, NaN or NaT). *)
Record row := Row {
  order_id : order_key;
  user_id : option Z;
  category : option string;
  amount : option Q;
  timestamp : option string;
  ts_clean : option datetime;
  order_date : option string
}.

Record DataFrame := Frame {
  columns : gset string;
  rows : list (nat * row)
}.

Definition isna {A} (c : option A) : bool :=
  match c with None => true | Some _ => false end.

Definition notna {A} (c : option A) : bool := negb (isna c).

Definition len (df : DataFrame) : nat := length (rows df).

(** [df[mask]], [df.dropna(subset=...)]: the rows that satisfy [p], in order,
    with their labels. *)
Definition filter_rows (p : row → bool) (df : DataFrame) : DataFrame :=
  Frame (columns df) (filter (λ ir, p ir.2) (rows df)).

(** [mask.sum()]: how many rows satisfy [p]. *)
Definition count_rows (p : row → bool) (df : DataFrame) : nat :=
  length (filter (λ ir, p ir.2) (rows df)).

(** An elementwise column assignment [df[c] = f(df)]. *)
Definition assign (c : string) (f : row → row) (df : DataFrame) : DataFrame :=
  Frame ({[c]} ∪ columns df) (prod_map id f <$> rows df).

(** ** Events and computations *)

(** The exceptions of a run: [IOError] from reading the input, and any other
    [Exception], from decoding the bytes of the input, the Parquet writer
    or the engine. *)
Inductive exn := IOError | Error.

(** The aggregate queries, by their SQL text. *)
Inductive column := Category | OrderDate | UserId | Amount.

Inductive expr :=
| Col (c : column)
| CountStar
| CountDistinct (c : column)
| Sum (c : column)
| Avg (c : column)
| Min (c : column)
| Max (c : column)
| Round (e : expr) (digits : nat).

Inductive source := FromDf | FromParquet.

Record query := Query {
  select : list (string * expr);
  from : source;
  group_by : option column;
  order_by : option (string * bool)
}.

(** A value in a result table; [None] is SQL NULL. *)
Inductive sqlval := SInt (n : Z) | SNum (q : option Q) | SStr (s : option string).

Definition table := list (list sqlval).

Inductive msg :=
| Phase (title : string)
| ErrNotFound
| WarnInvalidJSON (line_num : nat)
| ErrReadingFile
| ErrNoValidData
| Extracted (n : nat)
| Skipped (n : nat)
| ErrMissingColumns (missing : gset string)
| RemovingInvalidTs (n : nat)
| RemovingNegative (n : nat)
| RemovingNull (n : nat)
| RemovingDuplicates (n : nat)
| Transformed (n : nat)
| RemovedQuality (n : nat)
| Loaded (kb : Q)
| ErrWriting
| Heading (title : string)
| Result (t : table)
| WarnAnalyticsFailed
| ErrQuery (name : string)
| ErrConnecting
| ErrParquetNotFound
| AnalysisComplete
| Completed.

(** What a run does that can be observed: a console line, or a query handed
    to the engine. *)
Inductive event :=
| Say (m : msg)
| Exec (q : query).

(** How a computation ends: with a value, with an uncaught exception, or by
    [sys.exit]. *)
Inductive outcome (A : Type) : Type :=
| Return (a : A)
| Raise (e : exn)
| Exit (status : Z).
Arguments Return {A} a.
Arguments Raise {A} e.
Arguments Exit {A} status.

Definition io (A : Type) : Type := (list event * outcome A)%type.

Definition io_ret {A} (a : A) : io A := ([], Return a).

Definition io_bind {A B} (f : A → io B) (m : io A) : io B :=
  match m.2 with
  | Return a => (m.1 ++ (f a).1, (f a).2)
  | Raise e => (m.1, Raise e)
  | Exit s => (m.1, Exit s)
  end.

#[global] Instance io_mret : MRet io := @io_ret.
#[global] Instance io_mbind : MBind io := @io_bind.

Definition say (m : msg) : io unit := ([Say m], Return tt).
Definition raise {A} (e : exn) : io A := ([], Raise e).
Definition exit {A} (status : Z) : io A := ([], Exit status).

(** [try: m except Exception as e: h e].  [sys.exit] raises [SystemExit],
    which is not an [Exception], so an exit passes through. *)
Definition try_except {A} (m : io A) (h : exn → io A) : io A :=
  match m.2 with
  | Raise e => (m.1 ++ (h e).1, (h e).2)
  | _ => m
  end.

(** The status the process ends with: an uncaught exception prints a
    traceback and ends the interpreter with status 1. *)
Definition exit_status {A} (m : io A) : Z :=
  match m.2 with
  | Return _ => 0
  | Raise _ => 1
  | Exit s => s
  end.

Definition trace {A} (m : io A) : list event := m.1.

(** ** Extract ([extract_data], src/etl_pipeline.py:8-42) *)

(** The input path as the run finds it: nothing there, a file that reads to
    its end, a file whose reading fails with [IOError] after the lines
    given, or a file whose bytes stop being text after the lines given, so
    that reading on raises [UnicodeDecodeError]. *)
Inductive file :=
| Missing
| Content (lines : list string)
| Broken (lines : list string)
| Garbled (lines : list string).

Definition path_exists (f : file) : bool :=
  match f with Missing => false | _ => true end.

Definition present {A} (f : jfield A) : bool :=
  match f with Absent => false | Present _ => true end.

Definition cell {A} (f : jfield A) : option A :=
  match f with Absent => None | Present v => v end.

Definition key {A} (name : string) (f : jfield A) : gset string :=
  if present f then {[name]} else ∅.

Definition keys (r : record) : gset string :=
  key "order_id" (j_order_id r) ∪ key "user_id" (j_user_id r)
  ∪ key "category" (j_category r) ∪ key "amount" (j_amount r)
  ∪ key "timestamp" (j_timestamp r).

(** The [order_id] cell that [pd.DataFrame] makes of a record's key. *)
Definition id_cell (f : jfield string) : order_key :=
  match f with
  | Absent => KeyNaN
  | Present None => KeyNone
  | Present (Some s) => Key s
  end.

Definition to_row (r : record) : row :=
  Row (id_cell (j_order_id r)) (cell (j_user_id r)) (cell (j_category r))
      (cell (j_amount r)) (cell (j_timestamp r)) None None.

(** [pd.DataFrame(rows)]: the columns are the union of the keys, a key a
    record lacks is a missing value in its row, and the rows are labelled
    0, 1, 2, ... *)
Definition DataFrame_of (rs : list record) : DataFrame :=
  Frame (⋃ (keys <$> rs)) (imap (λ i r, (i, to_row r)) rs).

Section Extract.
(** [json.loads] on one line; [None] stands for [JSONDecodeError]. *)
Context (json_loads : string → option json).
(** [pd.DataFrame(rows)] when some row is not an order object: it prints
    nothing, and how it ends is left open.  What pandas builds then, and
    what the rest of the run does with it, is not modelled; this parameter
    marks the place. *)
Context (foreign_frame : list json → outcome DataFrame).

(** The loop [for line_num, line in enumerate(f, 1)], with its two
    accumulators.  Whatever [json.loads] returns is appended. *)
Fixpoint read_lines (line_num : nat) (lines : list string)
    (rows : list json) (errors : nat) : io (list json * nat) :=
  match lines with
  | [] => mret (rows, errors)
  | line :: rest =>
      match json_loads line with
      | Some v => read_lines (S line_num) rest (rows ++ [v]) errors
      | None =>
          say (WarnInvalidJSON line_num) ;;
          read_lines (S line_num) rest rows (S errors)
      end
  end.

(** [with open(input_file) as f: ...]: the loop over the lines the file
    yields, ended by [IOError] when reading fails and by
    [UnicodeDecodeError], which is not an [IOError], when the bytes are not
    text.  The decoding errors of [json.loads] are handled line by line in
    the loop. *)
Definition read_file (f : file) : io (list json * nat) :=
  match f with
  | Missing => raise IOError
  | Content lines => read_lines 1 lines [] 0
  | Broken lines => read_lines 1 lines [] 0 ;; raise IOError
  | Garbled lines => read_lines 1 lines [] 0 ;; raise Error
  end.

(** [pd.DataFrame(rows)]. *)
Definition pd_DataFrame (rows : list json) : io DataFrame :=
  match orders rows with
  | Some records => mret (DataFrame_of records)
  | None => ([], foreign_frame rows)
  end.

Definition extract_data (input_file : file) : io DataFrame :=
  say (Phase "EXTRACT PHASE") ;;
  (if path_exists input_file then mret tt
   else say ErrNotFound ;; exit 1) ;;
  '(rows, errors) ←
    try_except (read_file input_file)
      (λ e, match e with
            | IOError => say ErrReadingFile ;; exit 1
            | Error => raise Error
            end) ;
  match rows with
  | [] => say ErrNoValidData ;; exit 1
  | _ :: _ => mret tt
  end ;;
  say (Extracted (length rows)) ;;
  (if (0 <? errors)%nat then say (Skipped errors) else mret tt) ;;
  pd_DataFrame rows.
End Extract.

(** ** Validate ([validate_schema], src/etl_pipeline.py:44-53) *)

Definition required_cols : list string :=
  ["order_id"; "user_id"; "category"; "amount"; "timestamp"].

Definition validate_schema (df : DataFrame) : io bool :=
  let missing : gset string := list_to_set required_cols ∖ columns df in
  if decide (missing = ∅) then mret true
  else say (ErrMissingColumns missing) ;; exit 1.

(** ** Transform ([transform_data], src/etl_pipeline.py:55-111) *)

Definition with_ts_clean (t : option datetime) (r : row) : row :=
  Row (order_id r) (user_id r) (category r) (amount r) (timestamp r)
      t (order_date r).

Definition with_order_date (d : option string) (r : row) : row :=
  Row (order_id r) (user_id r) (category r) (amount r) (timestamp r)
      (ts_clean r) d.

Definition with_category (c : option string) (r : row) : row :=
  Row (order_id r) (user_id r) c (amount r) (timestamp r)
      (ts_clean r) (order_date r).

Fixpoint zeros (n : nat) : string :=
  match n with O => EmptyString | S n' => "0" +:+ zeros n' end.

Definition zfill (width : nat) (s : string) : string :=
  zeros (width - String.length s) +:+ s.

(** [str(t.date())], the ISO calendar date. *)
Definition date_str (t : datetime) : string :=
  zfill 4 (pretty (year t)) +:+ "-" +:+ zfill 2 (pretty (month t))
  +:+ "-" +:+ zfill 2 (pretty (day t)).

(** [.dt.date.astype(str)] on one cell. *)
Definition date_of (t : option datetime) : option string :=
  match t with Some t' => Some (date_str t') | None => Some "NaT" end.

(** [.fillna(v)] on one cell. *)
Definition fillna {A} (v : A) (c : option A) : option A :=
  match c with Some x => Some x | None => Some v end.

Definition Qltb (x y : Q) : bool := (Qnum x * QDen y <? Qnum y * QDen x)%Z.

(** [amount < 0] and [amount >= 0] on one cell: a comparison with a missing
    value is false. *)
Definition lt0 (a : option Q) : bool :=
  match a with Some q => Qltb q 0 | None => false end.

Definition ge0 (a : option Q) : bool :=
  match a with Some q => Qle_bool 0 q | None => false end.

(** [Series.duplicated()] sums to the number of rows whose order id was
    already seen further up; [drop_duplicates(subset=["order_id"],
    keep="first")] keeps the others.  [seen] holds the ids met so far. *)
Fixpoint count_duplicated (seen : list order_key) (l : list (nat * row)) : nat :=
  match l with
  | [] => 0
  | ir :: rest =>
      if bool_decide (order_id ir.2 ∈ seen) then S (count_duplicated seen rest)
      else count_duplicated (order_id ir.2 :: seen) rest
  end.

Fixpoint drop_duplicates (seen : list order_key) (l : list (nat * row))
    : list (nat * row) :=
  match l with
  | [] => []
  | ir :: rest =>
      if bool_decide (order_id ir.2 ∈ seen) then drop_duplicates seen rest
      else ir :: drop_duplicates (order_id ir.2 :: seen) rest
  end.

Definition clean_cols : list string :=
  ["order_id"; "user_id"; "category"; "amount"; "ts_clean"; "order_date"].

(** [df[clean_cols]]: of the columns a row can have, only [timestamp] is not
    selected. *)
Definition select_clean (df : DataFrame) : DataFrame :=
  Frame (list_to_set clean_cols)
        (prod_map id (λ r, Row (order_id r) (user_id r) (category r) (amount r)
                               None (ts_clean r) (order_date r)) <$> rows df).

Section Transform.
(** [pd.to_datetime(column, errors='coerce')]: the parsed cell at each
    position of the column, [None] for NaT.  The result at one position may
    depend on the whole column, as pandas infers one format for it. *)
Context (to_datetime : list (option string) → nat → option datetime).

Definition set_ts_clean (df : DataFrame) : DataFrame :=
  let parsed := to_datetime ((λ ir, timestamp ir.2) <$> rows df) in
  Frame ({["ts_clean"]} ∪ columns df)
        (imap (λ k ir, (ir.1, with_ts_clean (parsed k) ir.2)) (rows df)).

Definition drop_invalid_timestamps (df : DataFrame) : io DataFrame :=
  let invalid_ts := count_rows (λ r, isna (ts_clean r)) df in
  if (0 <? invalid_ts)%nat then
    say (RemovingInvalidTs invalid_ts) ;;
    mret (filter_rows (λ r, notna (ts_clean r)) df)
  else mret df.

Definition remove_negative_amounts (df : DataFrame) : io DataFrame :=
  let negative_amounts := count_rows (λ r, lt0 (amount r)) df in
  if (0 <? negative_amounts)%nat then
    say (RemovingNegative negative_amounts) ;;
    mret (filter_rows (λ r, ge0 (amount r)) df)
  else mret df.

Definition remove_null_amounts (df : DataFrame) : io DataFrame :=
  let null_amounts := count_rows (λ r, isna (amount r)) df in
  if (0 <? null_amounts)%nat then
    say (RemovingNull null_amounts) ;;
    mret (filter_rows (λ r, notna (amount r)) df)
  else mret df.

Definition remove_duplicate_order_ids (df : DataFrame) : io DataFrame :=
  let duplicates := count_duplicated [] (rows df) in
  if (0 <? duplicates)%nat then
    say (RemovingDuplicates duplicates) ;;
    mret (Frame (columns df) (drop_duplicates [] (rows df)))
  else mret df.

Definition transform_data (df : DataFrame) : io DataFrame :=
  say (Phase "TRANSFORM PHASE") ;;
  let initial_count := len df in
  validate_schema df ;;
  let df := set_ts_clean df in
  df ← drop_invalid_timestamps df ;
  let df := assign "order_date" (λ r, with_order_date (date_of (ts_clean r)) r) df in
  df ← remove_negative_amounts df ;
  df ← remove_null_amounts df ;
  df ← remove_duplicate_order_ids df ;
  let df := assign "category" (λ r, with_category (fillna "Unknown" (category r)) r) df in
  let df := select_clean df in
  let final_count := len df in
  let removed := initial_count - final_count in
  say (Transformed final_count) ;;
  (if (0 <? removed)%nat then say (RemovedQuality removed) else mret tt) ;;
  mret df.
End Transform.

(** ** Load ([load_data], src/etl_pipeline.py:113-134) *)

Section Load.
(** [os.makedirs], [df.to_parquet] and [os.path.getsize] on the output
    path: the size of the file written, in KB, or [None] when one of the
    three raises. *)
Context (to_parquet : DataFrame → option Q).

Definition write_parquet (df : DataFrame) : io Q :=
  match to_parquet df with
  | Some file_size => mret file_size
  | None => raise Error
  end.

Definition load_data (df : DataFrame) : io unit :=
  say (Phase "LOAD PHASE") ;;
  try_except
    (file_size ← write_parquet df ; say (Loaded file_size))
    (λ _, say ErrWriting ;; exit 1).
End Load.

(** ** Aggregate ([run_analytics], src/etl_pipeline.py:136-173, and
    src/analytics.py) *)

(** The SQL sent by [run_analytics]. *)
Definition preview_category_query : query :=
  Query [("category", Col Category); ("total_revenue", Sum Amount);
         ("order_count", CountStar); ("avg_order_value", Round (Avg Amount) 2)]
        FromDf (Some Category) (Some ("total_revenue", true)).

Definition preview_summary_query : query :=
  Query [("total_orders", CountStar); ("unique_users", CountDistinct UserId);
         ("total_revenue", Round (Sum Amount) 2);
         ("avg_order", Round (Avg Amount) 2)]
        FromDf None None.

(** The SQL sent by [analytics.py]. *)
Definition category_query : query :=
  Query [("category", Col Category); ("revenue", Sum Amount);
         ("order_count", CountStar); ("avg_order_value", Round (Avg Amount) 2)]
        FromParquet (Some Category) (Some ("revenue", true)).

Definition daily_query : query :=
  Query [("order_date", Col OrderDate); ("daily_revenue", Sum Amount);
         ("orders", CountStar)]
        FromParquet (Some OrderDate) (Some ("order_date", false)).

Definition summary_query : query :=
  Query [("total_orders", CountStar); ("unique_users", CountDistinct UserId);
         ("total_revenue", Round (Sum Amount) 2);
         ("avg_order_value", Round (Avg Amount) 2);
         ("min_order", Round (Min Amount) 2);
         ("max_order", Round (Max Amount) 2)]
        FromParquet None None.

Section Aggregate.
(** The engine: whether [duckdb.connect()] succeeds, and for each query its
    result table, or [None] when [execute] raises. *)
Context (connects : bool) (engine : query → option table).

Definition connect : io unit :=
  if connects then mret tt else raise Error.

Definition execute (q : query) : io table :=
  ([Exec q], match engine q with Some t => Return t | None => Raise Error end).

Definition run_analytics (df : DataFrame) : io unit :=
  say (Phase "ANALYTICS PREVIEW") ;;
  try_except
    (connect ;;
     result ← execute preview_category_query ;
     say (Heading "Revenue by Category") ;;
     say (Result result) ;;
     summary ← execute preview_summary_query ;
     say (Heading "Summary Statistics") ;;
     say (Result summary))
    (λ _, say WarnAnalyticsFailed).

(** [analytics.py], run as a script; [parquet_exists] is
    [os.path.exists("data/clean_orders.parquet")]. *)
Definition analytics (parquet_exists : bool) : io unit :=
  (if parquet_exists then mret tt
   else say ErrParquetNotFound ;; exit 1) ;;
  try_except
    (connect ;;
     say (Heading "TOP CATEGORIES BY REVENUE") ;;
     try_except
       (result ← execute category_query ; say (Result result))
       (λ _, say (ErrQuery "category")) ;;
     say (Heading "DAILY REVENUE TREND") ;;
     try_except
       (result ← execute daily_query ; say (Result result))
       (λ _, say (ErrQuery "daily revenue")) ;;
     say (Heading "OVERALL SUMMARY") ;;
     try_except
       (summary ← execute summary_query ; say (Result summary))
       (λ _, say (ErrQuery "summary")))
    (λ _, say ErrConnecting ;; exit 1) ;;
  say AnalysisComplete.
End Aggregate.

(** ** The run ([main], src/etl_pipeline.py:175-198) *)

(** What a run finds outside the program. *)
Record world := World {
  input_file : file;
  to_parquet : DataFrame → option Q;
  connects : bool;
  engine : query → option table
}.

Section Pipeline.
Context (json_loads : string → option json).
Context (foreign_frame : list json → outcome DataFrame).
Context (to_datetime : list (option string) → nat → option datetime).

Definition main (w : world) : io unit :=
  say (Phase "ETL PIPELINE STARTING") ;;
  df ← extract_data json_loads foreign_frame (input_file w) ;
  df ← transform_data to_datetime df ;
  load_data (to_parquet w) df ;;
  run_analytics (connects w) (engine w) df ;;
  say Completed.
End Pipeline.

(** ** Reference instances of the two library calls

    A decoder of JSON lines and an elementwise parser of timestamps of the
    form YYYY-MM-DDTHH:MM:SS, for the examples.  The decoder accepts the
    lines that are one JSON value and answers with the order object when the
    value is an object whose order fields have the types of the data model;
    strings are kept as their UTF-8 bytes. *)
Module Reference.

Inductive token :=
| TOpen | TClose | TLeft | TRight | TColon | TComma
| TStr (s : string)
| TWide
| TWord (w : string).

(** [wide] marks a string with an escaped surrogate, which has no UTF-8
    form. *)
Inductive mode :=
| Idle
| InStr (acc : string) (wide : bool)
| InEsc (acc : string) (wide : bool)
| InHex (acc : string) (wide : bool) (code : nat) (more : nat)
| InWord (acc : string).

Definition quote : ascii := "034"%char.

Definition snoc (s : string) (c : ascii) : string := s +:+ String c EmptyString.

Definition flush (m : mode) (ts : list token) : list token :=
  match m with InWord w => ts ++ [TWord w] | _ => ts end.

Definition word_of (m : mode) : string :=
  match m with InWord w => w | _ => EmptyString end.

Definition hex (c : ascii) : option nat :=
  let n := nat_of_ascii c in
  if (48 <=? n)%nat && (n <=? 57)%nat then Some (n - 48)
  else if (65 <=? n)%nat && (n <=? 70)%nat then Some (n - 55)
  else if (97 <=? n)%nat && (n <=? 102)%nat then Some (n - 87)
  else None.

(** The code points from D800 to DFFF. *)
Definition surrogate (code : nat) : bool :=
  (216 <=? code / 256)%nat && (code / 256 <=? 223)%nat.

(** The UTF-8 bytes of a code point of the basic plane. *)
Definition utf8 (code : nat) : string :=
  if (code <? 128)%nat then String (ascii_of_nat code) EmptyString
  else if (code <? 2048)%nat then
    String (ascii_of_nat (192 + code / 64))
      (String (ascii_of_nat (128 + code mod 64)) EmptyString)
  else
    String (ascii_of_nat (224 + code / 4096))
      (String (ascii_of_nat (128 + (code / 64) mod 64))
         (String (ascii_of_nat (128 + code mod 64)) EmptyString)).

Definition unescape (c : ascii) : option ascii :=
  match c with
  | "\"%char => Some "\"%char
  | "/"%char => Some "/"%char
  | "b"%char => Some "008"%char
  | "f"%char => Some "012"%char
  | "n"%char => Some "010"%char
  | "r"%char => Some "013"%char
  | "t"%char => Some "009"%char
  | _ => if Ascii.eqb c quote then Some quote else None
  end.

Fixpoint lex (cs : list ascii) (m : mode) (ts : list token) : option (list token) :=
  match cs with
  | [] =>
      match m with
      | Idle | InWord _ => Some (flush m ts)
      | _ => None
      end
  | c :: cs' =>
      match m with
      | InStr acc wide =>
          if Ascii.eqb c quote then
            lex cs' Idle (ts ++ [if wide then TWide else TStr acc])
          else if Ascii.eqb c "\"%char then lex cs' (InEsc acc wide) ts
          else if (nat_of_ascii c <? 32)%nat then None
          else lex cs' (InStr (snoc acc c) wide) ts
      | InEsc acc wide =>
          if Ascii.eqb c "u"%char then lex cs' (InHex acc wide 0 4) ts
          else
            match unescape c with
            | Some c' => lex cs' (InStr (snoc acc c') wide) ts
            | None => None
            end
      | InHex acc wide code more =>
          match hex c with
          | None => None
          | Some d =>
              let code' := 16 * code + d in
              match more with
              | 0 | 1 =>
                  if surrogate code' then lex cs' (InStr acc true) ts
                  else lex cs' (InStr (acc +:+ utf8 code') wide) ts
              | S more' => lex cs' (InHex acc wide code' more') ts
              end
          end
      | Idle | InWord _ =>
          match c with
          | " "%char | "009"%char | "010"%char | "013"%char => lex cs' Idle (flush m ts)
          | "{"%char => lex cs' Idle (flush m ts ++ [TOpen])
          | "}"%char => lex cs' Idle (flush m ts ++ [TClose])
          | "["%char => lex cs' Idle (flush m ts ++ [TLeft])
          | "]"%char => lex cs' Idle (flush m ts ++ [TRight])
          | ":"%char => lex cs' Idle (flush m ts ++ [TColon])
          | ","%char => lex cs' Idle (flush m ts ++ [TComma])
          | _ =>
              if Ascii.eqb c quote then lex cs' (InStr EmptyString false) (flush m ts)
              else lex cs' (InWord (snoc (word_of m) c)) ts
          end
      end
  end.

Definition digit (c : ascii) : option Z :=
  let n := nat_of_ascii c in
  if (48 <=? n)%nat && (n <=? 57)%nat then Some (Z.of_nat (n - 48)) else None.

Fixpoint digits (cs : list ascii) (acc : nat) : option nat :=
  match cs with
  | [] => Some acc
  | c :: cs' => d ← digit c ; digits cs' (10 * acc + Z.to_nat d)
  end.

(** [num] over [scale], read digit by digit; [fresh] says that no digit
    has been read since the start or the point. *)
Fixpoint decimal (cs : list ascii) (num : Z) (scale : option positive)
    (fresh : bool) : option (Q * bool) :=
  match cs with
  | [] =>
      if fresh then None
      else Some (match scale with
                 | None => (num # 1, true)
                 | Some d => (num # d, false)
                 end)
  | c :: cs' =>
      if Ascii.eqb c "."%char then
        match scale with
        | None => if fresh then None else decimal cs' num (Some 1%positive) true
        | Some _ => None
        end
      else
        d ← digit c ;
        decimal cs' (10 * num + d) ((λ s, 10 * s)%positive <$> scale) false
  end.

Definition leading_zero (cs : list ascii) : bool :=
  match cs with
  | "0"%char :: c :: _ => notna (digit c)
  | _ => false
  end.

Definition unsigned (cs : list ascii) : option (Q * bool) :=
  if leading_zero cs then None else decimal cs 0 None true.

Definition signed (cs : list ascii) : option (Q * bool) :=
  match cs with
  | "-"%char :: cs' => '(q, i) ← unsigned cs' ; Some (Qopp q, i)
  | _ => unsigned cs
  end.

(** The exponent after [e] or [E]: its sign and its size. *)
Definition exponent (cs : list ascii) : option (bool * nat) :=
  match cs with
  | [] => None
  | "-"%char :: (_ :: _) as ds => n ← digits ds 0 ; Some (false, n)
  | "+"%char :: (_ :: _) as ds => n ← digits ds 0 ; Some (true, n)
  | "-"%char :: [] | "+"%char :: [] => None
  | _ => n ← digits cs 0 ; Some (true, n)
  end.

(** The characters before the first [e] or [E], and those after it. *)
Fixpoint split_exponent (cs : list ascii) : list ascii * option (list ascii) :=
  match cs with
  | [] => ([], None)
  | c :: cs' =>
      if Ascii.eqb c "e"%char || Ascii.eqb c "E"%char then ([], Some cs')
      else let '(m, e) := split_exponent cs' in (c :: m, e)
  end.

(** A JSON number: its value, and whether Python reads it as an [int]. *)
Definition number (w : string) : option (Q * bool) :=
  let '(m, e) := split_exponent (String.list_ascii_of_string w) in
  '(q, i) ← signed m ;
  match e with
  | None => Some (q, i)
  | Some ecs =>
      '(up, n) ← exponent ecs ;
      let p := inject_Z (10 ^ Z.of_nat n)%Z in
      Some (if (up : bool) then (q * p)%Q else (q / p)%Q, false)
  end.

(** The words that are JSON values; Python also takes the three names of
    the floats that are not numbers. *)
Definition literal (w : string) : bool :=
  String.eqb w "null" || String.eqb w "true" || String.eqb w "false"
  || String.eqb w "NaN" || String.eqb w "Infinity" || String.eqb w "-Infinity"
  || notna (number w).

(** Whether the tokens are one JSON value: a pushdown recogniser, with the
    stack of the objects and lists that are open. *)
Inductive state := Value | ValueOrEnd | KeyOrEnd | Key | Colon | After.

Fixpoint accepts (ts : list token) (st : state) (stack : list bool) : bool :=
  match ts with
  | [] => match st, stack with After, [] => true | _, _ => false end
  | t :: ts' =>
      match st with
      | Value | ValueOrEnd =>
          match t with
          | TStr _ | TWide => accepts ts' After stack
          | TWord w => literal w && accepts ts' After stack
          | TOpen => accepts ts' KeyOrEnd (true :: stack)
          | TLeft => accepts ts' ValueOrEnd (false :: stack)
          | TRight =>
              match st, stack with
              | ValueOrEnd, false :: stack' => accepts ts' After stack'
              | _, _ => false
              end
          | _ => false
          end
      | KeyOrEnd =>
          match t, stack with
          | (TStr _ | TWide), _ => accepts ts' Colon stack
          | TClose, true :: stack' => accepts ts' After stack'
          | _, _ => false
          end
      | Key =>
          match t with
          | TStr _ | TWide => accepts ts' Colon stack
          | _ => false
          end
      | Colon =>
          match t with
          | TColon => accepts ts' Value stack
          | _ => false
          end
      | After =>
          match t, stack with
          | TComma, true :: _ => accepts ts' Key stack
          | TClose, true :: stack' => accepts ts' After stack'
          | TComma, false :: _ => accepts ts' Value stack
          | TRight, false :: stack' => accepts ts' After stack'
          | _, _ => false
          end
      end
  end.

(** The tokens after the value that starts the list. *)
Fixpoint skip (depth : nat) (ts : list token) : option (list token) :=
  match ts with
  | [] => None
  | t :: ts' =>
      match t with
      | TOpen | TLeft => skip (S depth) ts'
      | TClose | TRight =>
          match depth with
          | 0 => None
          | 1 => Some ts'
          | S d => skip d ts'
          end
      | _ =>
          match depth with
          | 0 => Some ts'
          | _ => skip depth ts'
          end
      end
  end.

Definition as_string (v : token) : option (option string) :=
  match v with
  | TStr s => Some (Some s)
  | TWord w => if String.eqb w "null" then Some None else None
  | _ => None
  end.

Definition as_number (v : token) : option (option (Q * bool)) :=
  match v with
  | TWord w => if String.eqb w "null" then Some None else Some <$> number w
  | _ => None
  end.

Definition as_integer (v : token) : option (option Z) :=
  n ← as_number v ;
  match n with
  | None => Some None
  | Some (q, true) => Some (Some (Qnum q))
  | Some (_, false) => None
  end.

Definition order_key_name (k : string) : bool :=
  String.eqb k "order_id" || String.eqb k "user_id" || String.eqb k "category"
  || String.eqb k "amount" || String.eqb k "timestamp".

(** The record with the value of an order key set; [None] when the value
    has another type than the data model gives the key. *)
Definition set_field (k : string) (v : token) (r : record) : option record :=
  if String.eqb k "order_id" then
    s ← as_string v ;
    Some (Record_ (Present s) (j_user_id r) (j_category r) (j_amount r) (j_timestamp r))
  else if String.eqb k "user_id" then
    n ← as_integer v ;
    Some (Record_ (j_order_id r) (Present n) (j_category r) (j_amount r) (j_timestamp r))
  else if String.eqb k "category" then
    s ← as_string v ;
    Some (Record_ (j_order_id r) (j_user_id r) (Present s) (j_amount r) (j_timestamp r))
  else if String.eqb k "amount" then
    n ← as_number v ;
    Some (Record_ (j_order_id r) (j_user_id r) (j_category r) (Present (fst <$> n)) (j_timestamp r))
  else
    s ← as_string v ;
    Some (Record_ (j_order_id r) (j_user_id r) (j_category r) (j_amount r) (Present s)).

(** The members of an object whose tokens are known to be one JSON value:
    an order key sets its field, the value of any other key is passed
    over. *)
Fixpoint members (fuel : nat) (ts : list token) (r : record) : option record :=
  match fuel with
  | 0 => None
  | S fuel' =>
      match ts with
      | key :: TColon :: rest =>
          '(r', rest') ←
            match key with
            | TStr k =>
                if order_key_name k then
                  match rest with
                  | v :: rest' => r' ← set_field k v r ; Some (r', rest')
                  | [] => None
                  end
                else rest' ← skip 0 rest ; Some (r, rest')
            | _ => rest' ← skip 0 rest ; Some (r, rest')
            end ;
          match rest' with
          | [TClose] => Some r'
          | TComma :: rest'' => members fuel' rest'' r'
          | _ => None
          end
      | _ => None
      end
  end.

Definition empty_record : record := Record_ Absent Absent Absent Absent Absent.

Definition object (ts : list token) : option record :=
  match ts with
  | [TClose] => Some empty_record
  | _ => members (length ts) ts empty_record
  end.

Definition json_loads (line : string) : option json :=
  ts ← lex (String.list_ascii_of_string line) Idle [] ;
  if accepts ts Value [] then
    Some (match ts with
          | TOpen :: ts' => default Foreign (Order <$> object ts')
          | _ => Foreign
          end)
  else None.

(** Lines are written with ['] where JSON has its double quote. *)
Fixpoint js (s : string) : string :=
  match s with
  | EmptyString => EmptyString
  | String c s' => String (if Ascii.eqb c "'"%char then quote else c) (js s')
  end.

Definition leap (y : nat) : bool :=
  ((y mod 4 =? 0) && negb (y mod 100 =? 0) || (y mod 400 =? 0))%nat.

Definition days_in_month (y m : nat) : nat :=
  match m with
  | 1 | 3 | 5 | 7 | 8 | 10 | 12 => 31
  | 4 | 6 | 9 | 11 => 30
  | 2 => if leap y then 29 else 28
  | _ => 0
  end.

Definition parse_iso (s : string) : option datetime :=
  match String.list_ascii_of_string s with
  | [y1; y2; y3; y4; "-"; m1; m2; "-"; d1; d2; "T"; h1; h2; ":"; i1; i2; ":"; s1; s2]%char =>
      y ← digits [y1; y2; y3; y4] 0 ;
      m ← digits [m1; m2] 0 ;
      d ← digits [d1; d2] 0 ;
      h ← digits [h1; h2] 0 ;
      i ← digits [i1; i2] 0 ;
      sec ← digits [s1; s2] 0 ;
      if ((1 <=? d) && (d <=? days_in_month y m) && (h <? 24)
          && (i <? 60) && (sec <? 60))%nat
      then Some (Datetime y m d h i sec) else None
  | _ => None
  end.

Definition to_datetime (col : list (option string)) (k : nat) : option datetime :=
  s ← mjoin (col !! k) ; parse_iso s.

End Reference.

(** * The order generator ([src/generate_orders.py])

    The script that writes the input file of the pipeline.  Its draws from
    [uuid] and [random], the clock, [json.dumps] and the file system are
    parameters; a draw is indexed by the iteration of the loop that makes
    it. *)

Definition NUM_ORDERS : nat := 200.
Definition NUM_USERS : Z := 50.
Definition MIN_AMOUNT : Q := 5.
Definition MAX_AMOUNT : Q := 300.
Definition CATEGORIES : list string :=
  ["Beauty"; "Electronics"; "Fashion"; "Grocery"; "Home"].

(** The dict built for one order. *)
Record entry := Entry {
  e_order_id : string;
  e_user_id : Z;
  e_amount : Q;
  e_category : string;
  e_timestamp : string
}.

(** The two lines the script can print. *)
Inductive gen_msg :=
| Generated (n : nat)
| ErrWritingFile.

(** What a run of the script leaves: its console lines, its exit status,
    and the lines of [data/raw_orders.json] when the file was written to
    its end. *)
Record generated := Run {
  console : list gen_msg;
  status : Z;
  raw_orders : option (list string)
}.

Section Generate.
(** [datetime.now()], [t - timedelta(minutes=i)] and [t.isoformat()]. *)
Context {instant : Type}.
Context (now : instant) (minus_minutes : instant → nat → instant).
Context (isoformat : instant → string).
(** [str(uuid.uuid4())], [random.randint], [random.uniform], [round] and
    [random.choice], as drawn in iteration [i]. *)
Context (uuid4 : nat → string) (randint : nat → Z → Z → Z).
Context (uniform : nat → Q → Q → Q) (round : Q → nat → Q).
Context (choice : nat → list string → string).
Context (json_dumps : entry → string).
(** Whether [os.makedirs] succeeds, and whether opening and writing the
    file do. *)
Context (makedirs_ok writable : bool).

Definition make_entry (start : instant) (i : nat) : entry :=
  Entry (uuid4 i)
        (randint i 1 NUM_USERS)
        (round (uniform i MIN_AMOUNT MAX_AMOUNT) 2)
        (choice i CATEGORIES)
        (isoformat (minus_minutes start i)).

(** The list [data] after the loop [for i in range(NUM_ORDERS)]. *)
Definition data : list entry :=
  let start := now in
  make_entry start <$> seq 0 NUM_ORDERS.

Definition newline : string := String "010"%char EmptyString.

(** What [f.write(json.dumps(d) + "\n")] writes for each entry, which is
    also what iterating over the file gives back, line by line. *)
Definition written_lines : list string :=
  (λ d, json_dumps d +:+ newline) <$> data.

(** The script.  An exception of [os.makedirs] is not handled and ends the
    interpreter with status 1; an [IOError] while writing is. *)
Definition generate_orders : generated :=
  if negb makedirs_ok then Run [] 1 None
  else if writable then Run [Generated NUM_ORDERS] 0 (Some written_lines)
  else Run [ErrWritingFile] 1 None.
End Generate.

(** * Specification

    The definitions from here on are not part of the program.  They name the
    quantities the properties are stated with, and the inputs of the
    examples. *)

(** ** Logs *)

(** A line that is printed only under a condition. *)
Definition said_if (b : bool) (m : msg) : list event :=
  if b then [Say m] else [].

(** What one guarded query of [analytics.py] leaves in the trace. *)
Definition attempt (engine : query → option table) (q : query) (name : string)
    : list event :=
  Exec q :: match engine q with
            | Some t => [Say (Result t)]
            | None => [Say (ErrQuery name)]
            end.

(** ** Extract *)

Section ExtractSpec.
Context (json_loads : string → option json).

(** A line that [json.loads] rejects. *)
Definition malformed (line : string) : bool := isna (json_loads line).

(** M, the number of lines that do not decode. *)
Definition malformed_count (lines : list string) : nat :=
  length (filter (λ l, malformed l) lines).

(** One warning for each line that does not decode, with its line number,
    the first line of the file being line [start]. *)
Fixpoint warnings (start : nat) (lines : list string) : list event :=
  match lines with
  | [] => []
  | line :: rest =>
      (if malformed line then [Say (WarnInvalidJSON start)] else [])
      ++ warnings (S start) rest
  end.

End ExtractSpec.

(** ** Transform *)

(** Every required column is a column of the frame. *)
Definition schema_ok (df : DataFrame) : Prop :=
  list_to_set required_cols ⊆ columns df.

(** The index labels of a frame. *)
Definition labels (df : DataFrame) : list nat := fst <$> rows df.

(** The [order_id] column. *)
Definition order_ids (df : DataFrame) : list order_key :=
  (λ ir, order_id ir.2) <$> rows df.

(** The rows whose order id is [k]. *)
Definition has_order_id (k : order_key) (ir : nat * row) : bool :=
  bool_decide (order_id ir.2 = k).

(** A record of the clean dataset: a parsed timestamp, a category, and an
    amount that is a number and not negative. *)
Definition clean_record (r : row) : Prop :=
  (∃ q, amount r = Some q ∧ (0 <= q)%Q)
  ∧ is_Some (ts_clean r) ∧ is_Some (category r).

(** [pd.to_datetime] gives NaT for a missing cell. *)
Definition null_is_NaT (to_datetime : list (option string) → nat → option datetime) : Prop :=
  ∀ col k, col !! k = Some None → to_datetime col k = None.

(** What the quality filters let through, and what the last three steps
    make of a row that got through. *)
Definition quality (r : row) : bool := notna (ts_clean r) && ge0 (amount r).

Definition finalize (r : row) : row :=
  Row (order_id r) (user_id r) (fillna "Unknown" (category r)) (amount r)
      None (ts_clean r) (date_of (ts_clean r)).

Section TransformSpec.
Context (to_datetime : list (option string) → nat → option datetime).

(** The rows with their parsed timestamps, before any filter. *)
Definition annotated (df : DataFrame) : list (nat * row) :=
  rows (set_ts_clean to_datetime df).

Definition quality_rows (df : DataFrame) : list (nat * row) :=
  filter (λ ir, quality ir.2) (annotated df).

Definition clean_rows (df : DataFrame) : list (nat * row) :=
  prod_map id finalize <$> drop_duplicates [] (quality_rows df).

(** The frame as each step of the transform leaves it. *)
Definition after_timestamps (df : DataFrame) : DataFrame :=
  assign "order_date" (λ r, with_order_date (date_of (ts_clean r)) r)
    (filter_rows (λ r, notna (ts_clean r)) (set_ts_clean to_datetime df)).

Definition after_negative (df : DataFrame) : DataFrame :=
  let df3 := after_timestamps df in
  if (0 <? count_rows (λ r, lt0 (amount r)) df3)%nat
  then filter_rows (λ r, ge0 (amount r)) df3 else df3.

Definition after_null (df : DataFrame) : DataFrame :=
  filter_rows (λ r, notna (amount r)) (after_negative df).

Definition after_duplicates (df : DataFrame) : DataFrame :=
  Frame (columns (after_null df)) (drop_duplicates [] (rows (after_null df))).

Definition transform_out (df : DataFrame) : DataFrame :=
  select_clean
    (assign "category" (λ r, with_category (fillna "Unknown" (category r)) r)
       (after_duplicates df)).

(** The counts the four cleaning steps compute. *)
Definition invalid_ts (df : DataFrame) : nat :=
  count_rows (λ r, isna (ts_clean r)) (set_ts_clean to_datetime df).
Definition negative_amounts (df : DataFrame) : nat :=
  count_rows (λ r, lt0 (amount r)) (after_timestamps df).
Definition null_amounts (df : DataFrame) : nat :=
  count_rows (λ r, isna (amount r)) (after_negative df).
Definition duplicates (df : DataFrame) : nat :=
  count_duplicated [] (rows (after_null df)).

(** What the Transformer prints for a frame that passes validation. *)
Definition transform_log (df : DataFrame) : list event :=
  [Say (Phase "TRANSFORM PHASE")]
  ++ said_if (0 <? invalid_ts df)%nat (RemovingInvalidTs (invalid_ts df))
  ++ said_if (0 <? negative_amounts df)%nat (RemovingNegative (negative_amounts df))
  ++ said_if (0 <? null_amounts df)%nat (RemovingNull (null_amounts df))
  ++ said_if (0 <? duplicates df)%nat (RemovingDuplicates (duplicates df))
  ++ [Say (Transformed (len (transform_out df)))]
  ++ said_if (0 <? len df - len (transform_out df))%nat
             (RemovedQuality (len df - len (transform_out df))).

End TransformSpec.

(** ** Aggregate *)

(** Whether a select expression computes a minimum or a maximum. *)
Fixpoint uses_min_or_max (e : expr) : bool :=
  match e with
  | Min _ | Max _ => true
  | Round e' _ => uses_min_or_max e'
  | _ => false
  end.

(** ** The run *)

Section RunSpec.
Context (json_loads : string → option json).
Context (to_datetime : list (option string) → nat → option datetime).

(** The lines the run gets to read. *)
Definition lines_read (f : file) : list string :=
  match f with Missing => [] | Content ls | Broken ls | Garbled ls => ls end.

(** What the lines read decode to, the malformed ones left out: the rows
    of the Extractor. *)
Definition decoded (f : file) : list json :=
  omap json_loads (lines_read f).

(** The input is in the data model: every line that decodes is an order
    object with values of the types the model gives its fields. *)
Definition in_data_model (f : file) : Prop :=
  Forall (λ v, is_Some (order_of v)) (decoded f).

(** The order objects among the decoded lines. *)
Definition records (w : world) : list record :=
  omap order_of (decoded (input_file w)).


End RunSpec.

(** ** Inputs of the examples *)

Module Examples.
Import Reference.

(** Input lines; [line_a] is the line of the negative-amount scenario. *)
Definition line_a : string :=
  js "{'order_id':'a','user_id':1,'category':'Beauty','amount':-5,'timestamp':'2024-01-01T00:00:00'}".
Definition line_x1 : string :=
  js "{'order_id': 'x', 'user_id': 7, 'category': 'Home', 'amount': 20.5, 'timestamp': '2024-01-02T10:00:00'}".
Definition line_x2 : string :=
  js "{'order_id': 'x', 'user_id': 8, 'category': 'Home', 'amount': 99, 'timestamp': '2024-01-02T10:05:00'}".
Definition line_null : string :=
  js "{'order_id': 'n', 'user_id': 3, 'category': 'Grocery', 'amount': null, 'timestamp': '2024-01-02T11:00:00'}".
Definition line_bad_ts : string :=
  js "{'order_id': 't', 'user_id': 3, 'category': 'Grocery', 'amount': 4, 'timestamp': 'yesterday'}".
Definition line_no_category : string :=
  js "{'order_id': 'p', 'user_id': 4, 'amount': 12, 'timestamp': '2024-01-03T09:30:00'}".
Definition line_no_amount : string :=
  js "{'order_id': 'q', 'user_id': 5, 'category': 'Home', 'timestamp': '2024-01-03T09:31:00'}".
Definition line_no_timestamp : string :=
  js "{'order_id': 'r', 'user_id': 5, 'category': 'Home', 'amount': 3}".

(** What [line_x1] and [line_x2] decode to. *)
Definition record_x1 : record :=
  Record_ (Present (Some "x")) (Present (Some 7%Z)) (Present (Some "Home"))
          (Present (Some (205 # 10))) (Present (Some "2024-01-02T10:00:00")).
Definition record_x2 : record :=
  Record_ (Present (Some "x")) (Present (Some 8%Z)) (Present (Some "Home"))
          (Present (Some (99 # 1))) (Present (Some "2024-01-02T10:05:00")).

(** The frame the Extractor builds from lines that all decode. *)
Definition frame (lines : list string) : DataFrame :=
  DataFrame_of (omap order_of (omap Reference.json_loads lines)).

(** Six orders: a negative amount, a duplicated id, a missing amount, a
    timestamp that does not parse, a missing category. *)
Definition mixed : DataFrame :=
  frame [line_a; line_x1; line_x2; line_null; line_bad_ts; line_no_category].

Definition mixed_out : DataFrame := transform_out Reference.to_datetime mixed.

(** Three records, each lacking one required field that the others have. *)
Definition partial : list record :=
  omap order_of (omap Reference.json_loads
       [line_no_category; line_no_amount;
        line_no_timestamp]).

(** A frame that reaches the amount checks with one negative amount, one
    missing amount and one good row. *)
Definition negative_and_null : DataFrame :=
  after_timestamps Reference.to_datetime
    (frame [line_a; line_null; line_x1]).

(** A frame of one order that needs no cleaning, and what the Transformer
    returns for it. *)
Definition clean : DataFrame := frame [line_x1].

Definition clean_out : DataFrame :=
  transform_out Reference.to_datetime clean.

(** A [pd.DataFrame] that raises on rows that are not all order objects. *)
Definition no_frame (rows : list json) : outcome DataFrame := Raise Error.



(** An engine on which every query grouped by category fails. *)
Definition category_fails (q : query) : option table :=
  match group_by q with Some Category => None | _ => Some [] end.

End Examples.

(** ** Banners *)


(** ** Generated orders *)

(** The record an entry of the generator decodes to, once written as a JSON
    object and read back: every key present, none null. *)
Definition record_of (d : entry) : record :=
  Record_ (Present (Some (e_order_id d))) (Present (Some (e_user_id d)))
          (Present (Some (e_category d))) (Present (Some (e_amount d)))
          (Present (Some (e_timestamp d))).

(** The row of the clean dataset that an entry becomes, given its parsed
    timestamp. *)
Definition clean_row (d : entry) (t : option datetime) : row :=
  Row (Key (e_order_id d)) (Some (e_user_id d)) (Some (e_category d))
      (Some (e_amount d)) None t (date_of t).

(** Draws, a clock and an encoder for the examples: the orders of one
    afternoon, with amounts in whole units. *)
Module Sample.

Definition now : datetime := Datetime 2024 1 1 12 0 0.

(** Correct while the result stays within the day of [t]. *)
Definition minus_minutes (t : datetime) (i : nat) : datetime :=
  let m := hour t * 60 + minute t - i in
  Datetime (year t) (month t) (day t) (m / 60) (m mod 60) (second t).

Definition isoformat (t : datetime) : string :=
  date_str t +:+ "T" +:+ zfill 2 (pretty (hour t)) +:+ ":"
  +:+ zfill 2 (pretty (minute t)) +:+ ":" +:+ zfill 2 (pretty (second t)).

Definition uuid4 (i : nat) : string := "order-" +:+ pretty i.

Definition randint (i : nat) (a b : Z) : Z := (a + Z.of_nat i mod (b - a + 1))%Z.

Definition uniform (i : nat) (a b : Q) : Q :=
  ((Qfloor a + Z.of_nat i mod (Qfloor b - Qfloor a + 1))%Z # 1)%Q.

Definition round (q : Q) (digits : nat) : Q := q.

Definition choice (i : nat) (l : list string) : string :=
  default "Home" (l !! (i mod length l)).

(** A JSON object with the five keys in the order of the dict; the amount
    is written as the whole number it is. *)
Definition json_dumps (d : entry) : string :=
  Reference.js "{'order_id': '" +:+ e_order_id d
  +:+ Reference.js "', 'user_id': " +:+ pretty (e_user_id d)
  +:+ Reference.js ", 'amount': " +:+ pretty (Qnum (e_amount d))
  +:+ Reference.js ", 'category': '" +:+ e_category d
  +:+ Reference.js "', 'timestamp': '" +:+ e_timestamp d
  +:+ Reference.js "'}".

Definition data : list entry :=
  data now minus_minutes isoformat uuid4 randint uniform round choice.

Definition written_lines : list string :=
  written_lines now minus_minutes isoformat uuid4 randint uniform round choice
    json_dumps.

End Sample.


(** * Properties *)

(** ** Running computations *)

Lemma outcome_bind_return {A B} (m : io A) (f : A → io B) a :
  m.2 = Return a → (m ≫= f).2 = (f a).2.
Proof. destruct m as [l o]. simpl. intros ->. reflexivity. Qed.

Lemma outcome_bind_exit {A B} (m : io A) (f : A → io B) s :
  m.2 = Exit s → (m ≫= f).2 = Exit s.
Proof. destruct m as [l o]. simpl. intros ->. reflexivity. Qed.

(** Membership in a trace that is a list of known events. *)
Ltac trace_cases H :=
  repeat (apply elem_of_cons in H as [H|H];
          [try discriminate H|]);
  try (by apply elem_of_nil in H).

Ltac trace_mem :=
  repeat first [apply list_elem_of_here | apply list_elem_of_further].

(** Unfold the sequencing of a computation whose parts are known. *)
Ltac run_io :=
  cbn [mbind mret io_mbind io_mret io_bind io_ret say raise exit
       try_except fst snd app].

Lemma elem_of_said_if b m e : e ∈ said_if b m ↔ b = true ∧ e = Say m.
Proof.
  destruct b; simpl.
  - rewrite list_elem_of_singleton. split; [by intros ->|by intros [_ ->]].
  - split; [by intros ?%elem_of_nil | by intros [? _]].
Qed.

(** ** Filters and counts *)

Section Filters.
Context {A : Type}.
Implicit Types (p q : A → bool) (l : list A).

Lemma filter_none_rejected p q l :
  (∀ x, q x = negb (p x)) →
  length (filter (λ x, q x) l) = 0 → filter (λ x, p x) l = l.
Proof.
  intros Hq. induction l as [|x l IH]; [done|].
  rewrite !filter_cons. specialize (Hq x).
  destruct (p x), (q x); simpl in *; try done.
  intros H. f_equal. auto.
Qed.

Lemma filter_none_Forall q l :
  length (filter (λ x, q x) l) = 0 → Forall (λ x, q x = false) l.
Proof.
  induction l as [|x l IH]; [constructor|].
  rewrite filter_cons. destruct (q x) eqn:E; simpl; [done|].
  intros H. constructor; auto.
Qed.

Lemma filter_bool_ext p q l :
  Forall (λ x, p x = q x) l → filter (λ x, p x) l = filter (λ x, q x) l.
Proof.
  induction 1 as [|x l Hx _ IH]; [done|].
  rewrite !filter_cons, Hx, IH. done.
Qed.

Lemma filter_filter_bool p q l :
  filter (λ x, p x) (filter (λ x, q x) l) = filter (λ x, q x && p x) l.
Proof.
  induction l as [|x l IH]; [done|].
  rewrite !filter_cons. destruct (q x) eqn:Eq; simpl.
  - rewrite filter_cons. destruct (p x); simpl; by rewrite IH.
  - done.
Qed.

Lemma length_filter_split p l :
  length (filter (λ x, p x) l) + length (filter (λ x, negb (p x)) l) = length l.
Proof.
  induction l as [|x l IH]; [done|].
  rewrite !filter_cons. destruct (p x); simpl; lia.
Qed.

End Filters.

Lemma count_none {A} (p : A → bool) (l : list A) :
  Forall (λ x, p x = false) l → length (filter (λ x, p x) l) = 0.
Proof.
  induction 1 as [|x l Hx _ IH]; [done|]. rewrite filter_cons, Hx. done.
Qed.

Lemma filter_all {A} (p : A → bool) (l : list A) :
  Forall (λ x, p x = true) l → filter (λ x, p x) l = l.
Proof.
  induction 1 as [|x l Hx _ IH]; [done|]. rewrite filter_cons, Hx. simpl. by f_equal.
Qed.

Lemma filter_fmap_bool {A B} (f : A → B) (p : B → bool) (l : list A) :
  filter (λ y, p y) (f <$> l) = f <$> filter (λ x, p (f x)) l.
Proof.
  induction l as [|x l IH]; [done|].
  rewrite fmap_cons, !filter_cons. destruct (p (f x)); simpl; by rewrite IH.
Qed.

(** ** Comparing an amount with zero *)

Lemma Qltb_0_ge (q : Q) : Qltb q 0 = negb (Qle_bool 0 q).
Proof.
  unfold Qltb, Qle_bool. simpl.
  destruct (Z.ltb_spec (Qnum q * 1) 0), (Z.leb_spec 0 (Qnum q * 1)); simpl; try done; lia.
Qed.

Lemma lt0_ge0 (a : option Q) : notna a = true → lt0 a = negb (ge0 a).
Proof. destruct a as [q|]; [intros _; apply Qltb_0_ge | done]. Qed.

Lemma ge0_notna (a : option Q) : ge0 a = true → notna a = true.
Proof. by destruct a. Qed.

Lemma ge0_Some (a : option Q) : ge0 a = true ↔ ∃ q, a = Some q ∧ (0 <= q)%Q.
Proof.
  destruct a as [q|]; simpl.
  - rewrite Qle_bool_iff. split; [eauto|]. by intros (? & [= <-] & ?).
  - split; [done|]. by intros (? & ? & ?).
Qed.

(** ** Extract *)

Lemma orders_fmap_Order (rs : list record) : orders (Order <$> rs) = Some rs.
Proof.
  unfold orders. induction rs as [|r rs IH]; [done|].
  rewrite fmap_cons. cbn. by rewrite IH.
Qed.

(** Rows that are all order objects are the orders among them. *)
Lemma in_model_fmap_Order (rows : list json) :
  Forall (λ v, is_Some (order_of v)) rows → rows = Order <$> omap order_of rows.
Proof.
  induction 1 as [|v rows [r Hr] _ IH]; [done|].
  destruct v as [r'|]; [|done]. cbn. by f_equal.
Qed.

Lemma omap_order_of_fmap (rs : list record) : omap order_of (Order <$> rs) = rs.
Proof. induction rs as [|r rs IH]; [done|]. cbn. by f_equal. Qed.

Section ExtractFacts.
Context (json_loads : string → option json).
Context (foreign_frame : list json → outcome DataFrame).

Lemma read_lines_run lines : ∀ line_num rows errors,
  read_lines json_loads line_num lines rows errors
  = (warnings json_loads line_num lines,
     Return (rows ++ omap json_loads lines,
             errors + malformed_count json_loads lines)).
Proof.
  induction lines as [|line rest IH]; intros line_num rows errors; simpl.
  - unfold mret, io_mret, io_ret, malformed_count. simpl.
    by rewrite app_nil_r, Nat.add_0_r.
  - unfold malformed_count, malformed. rewrite filter_cons.
    destruct (json_loads line) as [r|] eqn:E; simpl.
    + rewrite IH. by rewrite <- app_assoc.
    + rewrite IH. cbn [mbind io_mbind io_bind say fst snd].
      rewrite Nat.add_succ_comm. reflexivity.
Qed.

Lemma length_records lines :
  length (omap json_loads lines) + malformed_count json_loads lines = length lines.
Proof.
  unfold malformed_count, malformed.
  induction lines as [|line rest IH]; [done|].
  rewrite filter_cons. simpl.
  change (list_omap _ _ json_loads rest) with (omap json_loads rest).
  destruct (json_loads line); simpl; lia.
Qed.

Lemma pd_DataFrame_orders (rs : list record) :
  pd_DataFrame foreign_frame (Order <$> rs) = ([], Return (DataFrame_of rs)).
Proof. unfold pd_DataFrame. by rewrite orders_fmap_Order. Qed.


Lemma extract_data_broken lines :
  extract_data json_loads foreign_frame (Broken lines)
  = ([Say (Phase "EXTRACT PHASE")] ++ warnings json_loads 1 lines
     ++ [Say ErrReadingFile], Exit 1).
Proof.
  unfold extract_data, read_file. rewrite read_lines_run.
  run_io. cbn [path_exists]. by rewrite app_nil_r.
Qed.

(** Bytes that are not text raise an exception that the handler of the
    Extractor lets through. *)
Lemma extract_data_garbled lines :
  extract_data json_loads foreign_frame (Garbled lines)
  = ([Say (Phase "EXTRACT PHASE")] ++ warnings json_loads 1 lines, Raise Error).
Proof.
  unfold extract_data, read_file. rewrite read_lines_run.
  run_io. cbn [path_exists]. by rewrite !app_nil_r.
Qed.

Lemma extract_data_rows lines :
  extract_data json_loads foreign_frame (Content lines)
  = let rows := omap json_loads lines in
    match rows with
    | [] =>
        ([Say (Phase "EXTRACT PHASE")] ++ warnings json_loads 1 lines
         ++ [Say ErrNoValidData], Exit 1)
    | _ :: _ =>
        ([Say (Phase "EXTRACT PHASE")] ++ warnings json_loads 1 lines
         ++ [Say (Extracted (length rows))]
         ++ said_if (0 <? malformed_count json_loads lines)%nat
                    (Skipped (malformed_count json_loads lines)),
         (pd_DataFrame foreign_frame rows).2)
    end.
Proof.
  unfold extract_data, read_file. rewrite read_lines_run.
  run_io. cbn [path_exists Nat.add].
  destruct (omap json_loads lines) as [|r rs]; [reflexivity|].
  run_io. unfold pd_DataFrame.
  destruct (orders (r :: rs)) as [records|];
    [|destruct (foreign_frame (r :: rs))];
    destruct (0 <? _)%nat; run_io; rewrite ?app_nil_r; reflexivity.
Qed.

(** The Extractor on a file whose decoded lines are the order objects
    [records]. *)
Lemma extract_data_content lines (records : list record) :
  omap json_loads lines = Order <$> records →
  extract_data json_loads foreign_frame (Content lines)
  = match records with
    | [] =>
        ([Say (Phase "EXTRACT PHASE")] ++ warnings json_loads 1 lines
         ++ [Say ErrNoValidData], Exit 1)
    | _ :: _ =>
        ([Say (Phase "EXTRACT PHASE")] ++ warnings json_loads 1 lines
         ++ [Say (Extracted (length records))]
         ++ said_if (0 <? malformed_count json_loads lines)%nat
                    (Skipped (malformed_count json_loads lines)),
         Return (DataFrame_of records))
    end.
Proof.
  intros H. rewrite extract_data_rows, H. cbn zeta.
  destruct records as [|r rs]; [done|].
  by rewrite pd_DataFrame_orders, length_fmap.
Qed.

Lemma extract_data_outcome f :
  in_data_model json_loads f →
  (extract_data json_loads foreign_frame f).2
  = match f with
    | Missing | Broken _ => Exit 1
    | Garbled _ => Raise Error
    | Content lines =>
        match omap order_of (omap json_loads lines) with
        | [] => Exit 1
        | _ :: _ => Return (DataFrame_of (omap order_of (omap json_loads lines)))
        end
    end.
Proof.
  intros Hm. destruct f as [|lines|lines|lines].
  - reflexivity.
  - apply in_model_fmap_Order in Hm. unfold decoded in Hm. cbn [lines_read] in Hm.
    rewrite (extract_data_content _ _ Hm).
    by destruct (omap order_of (omap json_loads lines)).
  - by rewrite extract_data_broken.
  - by rewrite extract_data_garbled.
Qed.

End ExtractFacts.



(** ** Validate *)

Lemma validate_schema_ok df : schema_ok df → validate_schema df = ([], Return true).
Proof.
  unfold schema_ok, validate_schema. intros H.
  rewrite decide_True; [done|].
  apply elem_of_equiv_empty_L. intros x [Hx Hn]%elem_of_difference. by apply Hn, H.
Qed.

Lemma validate_schema_missing df :
  ¬ schema_ok df →
  validate_schema df =
    ([Say (ErrMissingColumns (list_to_set required_cols ∖ columns df))], Exit 1).
Proof.
  unfold schema_ok, validate_schema. intros H.
  rewrite decide_False; [done|]. intros E. apply H.
  intros x Hx. destruct (decide (x ∈ columns df)) as [|Hn]; [done|].
  assert (Hd : x ∈ list_to_set required_cols ∖ columns df) by by apply elem_of_difference.
  rewrite E in Hd. by apply not_elem_of_empty in Hd.
Qed.

Lemma columns_DataFrame_of rs : columns (DataFrame_of rs) = ⋃ (keys <$> rs).
Proof. reflexivity. Qed.

Lemma schema_ok_DataFrame_of rs :
  schema_ok (DataFrame_of rs)
  ↔ ∀ c, c ∈ required_cols → ∃ r, r ∈ rs ∧ c ∈ keys r.
Proof.
  unfold schema_ok. rewrite columns_DataFrame_of. split.
  - intros H c Hc.
    assert (Hin : c ∈ ⋃ (keys <$> rs)) by by apply H, elem_of_list_to_set.
    apply elem_of_union_list in Hin as (X & (r & -> & Hr)%list_elem_of_fmap & Hc').
    eauto.
  - intros H c Hc%elem_of_list_to_set.
    destruct (H c Hc) as (r & Hr & Hk).
    apply elem_of_union_list. exists (keys r). split; [|done].
    by apply list_elem_of_fmap_2.
Qed.

Lemma filter_eq_app_cons {A} (p : A → bool) (l q1 q2 : list A) (x : A) :
  filter (λ y, p y) l = q1 ++ x :: q2 →
  ∃ l1 l2, l = l1 ++ x :: l2 ∧ filter (λ y, p y) l1 = q1 ∧ p x = true.
Proof.
  revert q1. induction l as [|a l IH]; intros q1; simpl.
  { intros H. by destruct q1. }
  rewrite filter_cons. destruct (p a) eqn:E; simpl.
  - destruct q1 as [|b q1]; simpl.
    + intros [= -> Hq]. by exists [], l.
    + intros [= -> Hq]. destruct (IH _ Hq) as (l1 & l2 & -> & <- & Hx).
      exists (b :: l1), l2. split; [done|]. split; [|done].
      rewrite filter_cons, E. done.
  - intros Hq. destruct (IH _ Hq) as (l1 & l2 & -> & <- & Hx).
    exists (a :: l1), l2. split; [done|]. split; [|done].
    rewrite filter_cons, E. done.
Qed.

Lemma elem_of_drop_duplicates seen (l : list (nat * row)) x :
  x ∈ drop_duplicates seen l
  ↔ ∃ l1 l2, l = l1 ++ x :: l2 ∧ (order_id x.2 ∉ seen)
             ∧ order_id x.2 ∉ ((λ ir, order_id ir.2) <$> l1).
Proof.
  revert seen. induction l as [|a l IH]; intros seen; simpl.
  { split; [by intros ?%elem_of_nil|]. intros (l1 & l2 & H & _). by destruct l1. }
  case_bool_decide as Ha.
  - rewrite IH. split.
    + intros (l1 & l2 & -> & Hs & Hl). exists (a :: l1), l2.
      split; [done|]. split; [done|]. rewrite fmap_cons.
      intros [Heq|?]%elem_of_cons; [|done]. apply Hs. by rewrite Heq.
    + intros ([|b l1] & l2 & Hl & Hs & Hn); simpl in Hl.
      * injection Hl as -> ->. done.
      * injection Hl as -> ->. exists l1, l2. split; [done|]. split; [done|].
        intros ?. apply Hn. rewrite fmap_cons. by right.
  - rewrite elem_of_cons, IH. split.
    + intros [->|(l1 & l2 & -> & Hs & Hl)].
      * exists [], l. split; [done|]. split; [done|]. by intros ?%elem_of_nil.
      * exists (a :: l1), l2. split; [done|].
        split; [intros ?; apply Hs; by right|]. rewrite fmap_cons.
        intros [Heq|?]%elem_of_cons; [|done]. apply Hs. rewrite Heq. by left.
    + intros ([|b l1] & l2 & Hl & Hs & Hn); simpl in Hl.
      * injection Hl as -> ->. by left.
      * injection Hl as -> ->. right. exists l1, l2. split; [done|].
        rewrite fmap_cons in Hn. split.
        -- intros [Heq|?]%elem_of_cons; [|done]. apply Hn. rewrite Heq. by left.
        -- intros ?. apply Hn. by right.
Qed.

(** ** The steps of the transform *)

Lemma drop_invalid_timestamps_run df :
  drop_invalid_timestamps df =
    (said_if (0 <? count_rows (λ r, isna (ts_clean r)) df)%nat
             (RemovingInvalidTs (count_rows (λ r, isna (ts_clean r)) df)),
     Return (filter_rows (λ r, notna (ts_clean r)) df)).
Proof.
  unfold drop_invalid_timestamps.
  destruct (0 <? _)%nat eqn:E; [done|].
  apply Nat.ltb_ge in E. simpl. unfold mret, io_mret, io_ret. do 2 f_equal.
  destruct df as [cols rs]. unfold filter_rows, count_rows in *. simpl in *.
  f_equal. symmetry.
  apply (filter_none_rejected (λ ir, notna (ts_clean ir.2)) (λ ir, isna (ts_clean ir.2))).
  - intros [? r]. unfold notna. by destruct (isna _).
  - lia.
Qed.

Lemma remove_negative_amounts_run df :
  remove_negative_amounts df =
    (said_if (0 <? count_rows (λ r, lt0 (amount r)) df)%nat
             (RemovingNegative (count_rows (λ r, lt0 (amount r)) df)),
     Return (if (0 <? count_rows (λ r, lt0 (amount r)) df)%nat
             then filter_rows (λ r, ge0 (amount r)) df else df)).
Proof. unfold remove_negative_amounts. by destruct (0 <? _)%nat. Qed.

Lemma remove_null_amounts_run df :
  remove_null_amounts df =
    (said_if (0 <? count_rows (λ r, isna (amount r)) df)%nat
             (RemovingNull (count_rows (λ r, isna (amount r)) df)),
     Return (filter_rows (λ r, notna (amount r)) df)).
Proof.
  unfold remove_null_amounts.
  destruct (0 <? _)%nat eqn:E; [done|].
  apply Nat.ltb_ge in E. simpl. unfold mret, io_mret, io_ret. do 2 f_equal.
  destruct df as [cols rs]. unfold filter_rows, count_rows in *. simpl in *.
  f_equal. symmetry.
  apply (filter_none_rejected (λ ir, notna (amount ir.2)) (λ ir, isna (amount ir.2))).
  - intros [? r]. unfold notna. by destruct (isna _).
  - lia.
Qed.

(** Whatever the negative-amount step did, once the null-amount step has
    run the rows left are those whose amount is a number that is not
    negative. *)
Lemma amount_steps_rows df :
  rows (filter_rows (λ r, notna (amount r))
          (if (0 <? count_rows (λ r, lt0 (amount r)) df)%nat
           then filter_rows (λ r, ge0 (amount r)) df else df))
  = filter (λ ir, ge0 (amount ir.2)) (rows df).
Proof.
  destruct (0 <? _)%nat eqn:E; simpl.
  - rewrite (filter_filter_bool (λ ir, notna (amount ir.2)) (λ ir, ge0 (amount ir.2))).
    apply filter_bool_ext, Forall_forall. intros [i r] _. simpl.
    by destruct (amount r) as [q|]; simpl; [rewrite andb_true_r|].
  - apply Nat.ltb_ge in E.
    assert (H : count_rows (λ r, lt0 (amount r)) df = 0) by lia.
    apply (filter_none_Forall (λ ir : nat * row, lt0 (amount ir.2))) in H.
    apply filter_bool_ext. eapply Forall_impl; [exact H|].
    intros [i r]. simpl. destruct (amount r) as [q|]; [|done]. simpl.
    rewrite Qltb_0_ge. by destruct (Qle_bool 0 q).
Qed.

Section Duplicates.
Implicit Types (seen : list order_key) (l : list (nat * row)).

Lemma drop_duplicates_none seen l :
  count_duplicated seen l = 0 → drop_duplicates seen l = l.
Proof.
  revert seen. induction l as [|ir l IH]; intros seen; [done|]. simpl.
  case_bool_decide; [done|]. intros Hc. f_equal. auto.
Qed.

Lemma drop_duplicates_fmap (f : row → row) seen l :
  (∀ r, order_id (f r) = order_id r) →
  drop_duplicates seen (prod_map id f <$> l)
  = prod_map id f <$> drop_duplicates seen l.
Proof.
  intros Hf. revert seen. induction l as [|[i r] l IH]; intros seen; [done|].
  simpl. rewrite Hf. case_bool_decide; simpl; by rewrite IH.
Qed.

Lemma count_duplicated_length seen l :
  count_duplicated seen l + length (drop_duplicates seen l) = length l.
Proof.
  revert seen. induction l as [|ir l IH]; intros seen; [done|].
  simpl. case_bool_decide; simpl.
  - specialize (IH seen). lia.
  - specialize (IH (order_id ir.2 :: seen)). lia.
Qed.

Lemma drop_duplicates_sublist seen l : drop_duplicates seen l `sublist_of` l.
Proof.
  revert seen. induction l as [|ir l IH]; intros seen; [done|].
  simpl. case_bool_decide; [apply sublist_cons | apply sublist_skip]; apply IH.
Qed.

Lemma drop_duplicates_fresh seen l ir :
  ir ∈ drop_duplicates seen l → order_id ir.2 ∉ seen.
Proof.
  revert seen. induction l as [|x l IH]; intros seen; simpl; [by intros ?%elem_of_nil|].
  case_bool_decide as Hx.
  - apply IH.
  - intros [->|Hin]%elem_of_cons; [done|].
    apply IH in Hin. intros ?. apply Hin. by right.
Qed.

Lemma drop_duplicates_NoDup seen l :
  NoDup ((λ ir, order_id ir.2) <$> drop_duplicates seen l).
Proof.
  revert seen. induction l as [|x l IH]; intros seen; simpl; [constructor|].
  case_bool_decide as Hx; [apply IH|].
  rewrite fmap_cons. constructor; [|apply IH].
  intros (ir & Hk & Hin)%list_elem_of_fmap.
  apply drop_duplicates_fresh in Hin. apply Hin. rewrite <- Hk. by left.
Qed.

(** Of the rows that carry one order id, the first one that reaches the
    step is the one kept, and no other. *)
Lemma drop_duplicates_first seen l k :
  filter (λ ir, has_order_id k ir) (drop_duplicates seen l)
  = if bool_decide (k ∈ seen) then []
    else take 1 (filter (λ ir, has_order_id k ir) l).
Proof.
  revert seen. induction l as [|x l IH]; intros seen; simpl.
  { by case_bool_decide. }
  rewrite (filter_cons _ x l).
  destruct (has_order_id k x) eqn:E; simpl;
    [apply bool_decide_eq_true in E | apply bool_decide_eq_false in E].
  - subst k. case_bool_decide as Hx.
    + rewrite IH. by rewrite bool_decide_true.
    + rewrite filter_cons. unfold has_order_id at 1.
      rewrite decide_True by by apply bool_decide_pack. simpl.
      rewrite IH, bool_decide_true by by left. done.
  - case_bool_decide as Hx.
    + by rewrite IH.
    + rewrite filter_cons. unfold has_order_id at 1.
      rewrite decide_False by by intros ?%bool_decide_unpack. rewrite IH.
      case_bool_decide as Hk1; case_bool_decide as Hk2; try done.
      * apply elem_of_cons in Hk1 as [->|?]; done.
      * exfalso. apply Hk1. by right.
Qed.

Lemma count_duplicated_NoDup seen (l : list (nat * row)) :
  NoDup ((λ ir, order_id ir.2) <$> l) →
  (∀ ir, ir ∈ l → order_id ir.2 ∉ seen) →
  count_duplicated seen l = 0.
Proof.
  revert seen. induction l as [|x l IH]; intros seen Hnd Hs; [done|].
  rewrite fmap_cons in Hnd. apply NoDup_cons in Hnd as [Hx Hnd].
  simpl. rewrite bool_decide_false by (apply Hs; by left).
  apply IH; [done|]. intros ir Hin [Heq|Hmem]%elem_of_cons.
  - apply Hx. rewrite <- Heq. by apply (list_elem_of_fmap_2 (λ ir, order_id ir.2)).
  - apply (Hs ir); [by right|done].
Qed.

End Duplicates.

Lemma remove_duplicate_order_ids_run df :
  remove_duplicate_order_ids df =
    (said_if (0 <? count_duplicated [] (rows df))%nat
             (RemovingDuplicates (count_duplicated [] (rows df))),
     Return (Frame (columns df) (drop_duplicates [] (rows df)))).
Proof.
  unfold remove_duplicate_order_ids.
  destruct (0 <? _)%nat eqn:E; [done|].
  apply Nat.ltb_ge in E. simpl. unfold mret, io_mret, io_ret. do 2 f_equal.
  destruct df as [cols rs]. simpl in *. f_equal. symmetry.
  apply drop_duplicates_none. lia.
Qed.

(** C2, at an input where the code departs from it.  Three rows reach the
    amount checks: label 0 with amount -5, label 1 with no amount, label 2
    with amount 20.5.  The negative-amount step counts one negative amount
    and prints 1, but its filter [amount >= 0] leaves only label 2: the row
    without amount is gone as well.  The null-amount step then counts zero
    and prints nothing. *)
Theorem C2_negative_filter_also_drops_null_amounts :
  labels Examples.negative_and_null = [0; 1; 2]
  ∧ count_rows (λ r, lt0 (amount r)) Examples.negative_and_null = 1
  ∧ count_rows (λ r, isna (amount r)) Examples.negative_and_null = 1
  ∧ ∃ df',
      remove_negative_amounts Examples.negative_and_null
      = ([Say (RemovingNegative 1)], Return df')
      ∧ labels df' = [2]
      ∧ remove_null_amounts df' = ([], Return df')
      ∧ trace (transform_data Reference.to_datetime
                 (Examples.frame [Examples.line_a; Examples.line_null; Examples.line_x1]))
        = [Say (Phase "TRANSFORM PHASE"); Say (RemovingNegative 1);
           Say (Transformed 1); Say (RemovedQuality 2)].
Proof.
  split; [by vm_compute|]. split; [by vm_compute|]. split; [by vm_compute|].
  eexists. split; [by vm_compute|]. split; [by vm_compute|].
  split; by vm_compute.
Qed.

(** C9.  When the rows of the frame that reaches the de-duplication step
    which carry one order id are [first], then [rest], in row order, the
    step returns a frame in which [first], unchanged, is the only row with
    that id; the rows kept stay in their order. *)
Theorem C9_first_occurrence_is_kept
    (df : DataFrame) (k : order_key) (first : nat * row)
    (rest : list (nat * row)) :
  filter (λ ir, has_order_id k ir) (rows df) = first :: rest →
  ∃ log out,
    remove_duplicate_order_ids df = (log, Return out)
    ∧ filter (λ ir, has_order_id k ir) (rows out) = [first]
    ∧ rows out `sublist_of` rows df
    ∧ NoDup (order_ids out).
Proof.
  intros Hf. rewrite remove_duplicate_order_ids_run.
  eexists _, _. split; [reflexivity|]. cbn [rows]. split; [|split].
  - rewrite drop_duplicates_first, Hf.
    by rewrite bool_decide_false by by intros ?%elem_of_nil.
  - apply drop_duplicates_sublist.
  - apply drop_duplicates_NoDup.
Qed.

Lemma C9_first_occurrence_is_kept_witness :
  filter (λ ir, has_order_id (Key "x") ir)
    (rows (Examples.frame [Examples.line_x1; Examples.line_no_category; Examples.line_x2]))
  = [(0, to_row Examples.record_x1); (2, to_row Examples.record_x2)]
  ∧ ∃ log out,
      remove_duplicate_order_ids
        (Examples.frame [Examples.line_x1; Examples.line_no_category; Examples.line_x2])
      = (log, Return out)
      ∧ filter (λ ir, has_order_id (Key "x") ir) (rows out)
        = [(0, to_row Examples.record_x1)]
      ∧ rows out `sublist_of`
          rows (Examples.frame [Examples.line_x1; Examples.line_no_category; Examples.line_x2])
      ∧ NoDup (order_ids out).
Proof.
  split; [vm_compute; reflexivity|].
  apply (C9_first_occurrence_is_kept _ (Key "x") _ [(2, to_row Examples.record_x2)]).
  vm_compute. reflexivity.
Defined.

(** ** The transform as a whole *)

Section TransformFacts.
Context (to_datetime : list (option string) → nat → option datetime).

Lemma transform_data_run df :
  schema_ok df →
  transform_data to_datetime df
  = (transform_log to_datetime df, Return (transform_out to_datetime df)).
Proof.
  intros Hs. unfold transform_data.
  rewrite (validate_schema_ok _ Hs), drop_invalid_timestamps_run.
  cbn [mbind io_mbind io_bind say fst snd].
  rewrite remove_negative_amounts_run.
  cbn [mbind io_mbind io_bind say fst snd].
  rewrite remove_null_amounts_run.
  cbn [mbind io_mbind io_bind say fst snd].
  rewrite remove_duplicate_order_ids_run.
  cbn [mbind io_mbind io_bind say fst snd].
  unfold transform_log, transform_out, duplicates, null_amounts, negative_amounts,
    invalid_ts, after_duplicates, after_null, after_negative, after_timestamps.
  by destruct (0 <? len df - _)%nat.
Qed.

Lemma transform_data_missing df :
  ¬ schema_ok df →
  transform_data to_datetime df
  = ([Say (Phase "TRANSFORM PHASE");
      Say (ErrMissingColumns (list_to_set required_cols ∖ columns df))], Exit 1).
Proof.
  intros H. unfold transform_data. by rewrite (validate_schema_missing _ H).
Qed.

Lemma transform_data_outcome df :
  (transform_data to_datetime df).2
  = if decide (schema_ok df) then Return (transform_out to_datetime df)
    else Exit 1.
Proof.
  case_decide as H.
  - by rewrite transform_data_run.
  - by rewrite transform_data_missing.
Qed.

Lemma transform_data_returns df :
  schema_ok df →
  ∃ log out, transform_data to_datetime df = (log, Return out).
Proof. intros H. rewrite transform_data_run by done. eauto. Qed.

Lemma transform_data_Return df out :
  (transform_data to_datetime df).2 = Return out →
  schema_ok df ∧ out = transform_out to_datetime df.
Proof.
  rewrite transform_data_outcome. case_decide; [|done]. by intros [= <-].
Qed.

Lemma rows_after_null df :
  rows (after_null to_datetime df)
  = prod_map id (λ r, with_order_date (date_of (ts_clean r)) r)
      <$> quality_rows to_datetime df.
Proof.
  unfold after_null, after_negative. rewrite amount_steps_rows.
  unfold after_timestamps, assign, filter_rows, quality_rows, annotated. simpl.
  rewrite (filter_fmap_bool _ (λ ir, ge0 (amount ir.2))).
  f_equal. rewrite (filter_filter_bool (λ ir : nat * row, ge0 (amount ir.2))
                      (λ ir, notna (ts_clean ir.2))).
  done.
Qed.

Lemma rows_transform_out df :
  rows (transform_out to_datetime df) = clean_rows to_datetime df.
Proof.
  unfold transform_out, select_clean, assign, after_duplicates, clean_rows.
  cbn [rows]. rewrite rows_after_null, drop_duplicates_fmap by done.
  rewrite <- !list_fmap_compose. apply list_fmap_ext. by intros _ [i []] _.
Qed.

Lemma columns_transform_out df :
  columns (transform_out to_datetime df) = list_to_set clean_cols.
Proof. done. Qed.

Lemma elem_of_clean_rows df ir :
  ir ∈ clean_rows to_datetime df →
  ∃ r, ir = (ir.1, finalize r) ∧ (ir.1, r) ∈ quality_rows to_datetime df.
Proof.
  unfold clean_rows. intros ([i r] & -> & Hin)%list_elem_of_fmap.
  exists r. split; [done|]. simpl.
  eapply elem_of_sublist; [done|apply drop_duplicates_sublist].
Qed.

Lemma finalize_clean r : quality r = true → clean_record (finalize r).
Proof.
  unfold quality. intros [Hts Ha]%andb_true_iff.
  split; [by apply ge0_Some|]. split; simpl.
  - by destruct (ts_clean r).
  - by destruct (category r).
Qed.

(** In the Transformer's output, the record with a given order id is the
    first of the rows that reached the de-duplication step with that id,
    with its own values. *)
Lemma transform_keeps_first df out k first rest :
  (transform_data to_datetime df).2 = Return out →
  filter (λ ir, has_order_id k ir) (quality_rows to_datetime df) = first :: rest →
  filter (λ ir, has_order_id k ir) (rows out) = [(first.1, finalize first.2)]
  ∧ amount (finalize first.2) = amount first.2
  ∧ user_id (finalize first.2) = user_id first.2
  ∧ ts_clean (finalize first.2) = ts_clean first.2.
Proof.
  intros [_ ->]%transform_data_Return Hf. split; [|done].
  rewrite rows_transform_out. unfold clean_rows.
  rewrite (filter_fmap_bool _ (λ ir, has_order_id k ir)).
  rewrite (filter_bool_ext _ (λ ir, has_order_id k ir))
    by (apply Forall_forall; by intros [] _).
  rewrite drop_duplicates_first, Hf.
  rewrite bool_decide_false by by intros ?%elem_of_nil. by destruct first.
Qed.

(** What the null-amount step finds depends on whether the negative-amount
    step filtered: its filter keeps only rows whose amount is a number. *)
Lemma null_amounts_after_negative df :
  null_amounts to_datetime df
  = if (0 <? negative_amounts to_datetime df)%nat then 0
    else count_rows (λ r, isna (amount r)) (after_timestamps to_datetime df).
Proof.
  unfold null_amounts, after_negative, negative_amounts.
  destruct (0 <? _)%nat; [|done].
  unfold count_rows, filter_rows. cbn [rows].
  rewrite (filter_filter_bool (λ ir : nat * row, isna (amount ir.2))
             (λ ir, ge0 (amount ir.2))).
  apply count_none, Forall_forall. intros [i r] _. simpl.
  destruct (amount r); simpl; [apply andb_false_r|done].
Qed.

Lemma order_ids_annotated df :
  (λ ir : nat * row, order_id ir.2) <$> annotated to_datetime df = order_ids df.
Proof.
  unfold annotated, set_ts_clean, order_ids. cbn [rows].
  apply list_eq. intros j.
  rewrite !list_lookup_fmap, list_lookup_imap. by destruct (rows df !! j).
Qed.

Lemma length_annotated df : length (annotated to_datetime df) = len df.
Proof. unfold annotated, set_ts_clean, len. cbn [rows]. apply length_imap. Qed.

(** The Transformer's output lacks the [timestamp] column, so it is not an
    input the Transformer accepts. *)
Lemma transform_rerun_exits df out :
  (transform_data to_datetime df).2 = Return out →
  transform_data to_datetime out
  = ([Say (Phase "TRANSFORM PHASE"); Say (ErrMissingColumns {["timestamp"]})],
     Exit 1).
Proof.
  intros [_ ->]%transform_data_Return.
  rewrite transform_data_missing.
  - rewrite columns_transform_out. do 4 f_equal.
  - unfold schema_ok. rewrite columns_transform_out. compute_done.
Qed.

(** On a dataset that needs no cleaning every count is zero. *)
Lemma clean_input_log df :
  Forall (λ ir, quality ir.2 = true) (annotated to_datetime df) →
  NoDup (order_ids df) →
  rows (transform_out to_datetime df)
    = prod_map id finalize <$> annotated to_datetime df
  ∧ transform_log to_datetime df
    = [Say (Phase "TRANSFORM PHASE"); Say (Transformed (len df))].
Proof.
  intros Hq Hnd.
  assert (Hqr : quality_rows to_datetime df = annotated to_datetime df)
    by by apply (filter_all (λ ir, quality ir.2)).
  assert (Hrows : rows (transform_out to_datetime df)
                  = prod_map id finalize <$> annotated to_datetime df).
  { rewrite rows_transform_out. unfold clean_rows. rewrite Hqr.
    rewrite drop_duplicates_none; [done|].
    apply count_duplicated_NoDup; [by rewrite order_ids_annotated|].
    by intros ir _ ?%elem_of_nil. }
  split; [done|].
  assert (Hts : invalid_ts to_datetime df = 0).
  { apply (count_none (λ ir : nat * row, isna (ts_clean ir.2))).
    eapply Forall_impl; [exact Hq|]. intros [i r]. unfold quality, notna. simpl.
    by destruct (isna (ts_clean r)). }
  assert (Hat : rows (after_timestamps to_datetime df)
                = prod_map id (λ r, with_order_date (date_of (ts_clean r)) r)
                    <$> annotated to_datetime df).
  { unfold after_timestamps, assign, filter_rows. cbn [rows]. f_equal.
    apply (filter_all (λ ir : nat * row, notna (ts_clean ir.2))).
    eapply Forall_impl; [exact Hq|]. intros [i r]. unfold quality. simpl.
    by intros [? _]%andb_true_iff. }
  assert (Hneg : negative_amounts to_datetime df = 0).
  { unfold negative_amounts, count_rows. rewrite Hat.
    apply (count_none (λ ir : nat * row, lt0 (amount ir.2))).
    apply Forall_fmap. eapply Forall_impl; [exact Hq|].
    intros [i r]. unfold quality. simpl. intros [_ Hge]%andb_true_iff.
    rewrite lt0_ge0 by by apply ge0_notna. by rewrite Hge. }
  assert (Hnull : null_amounts to_datetime df = 0).
  { rewrite null_amounts_after_negative, Hneg. simpl.
    unfold count_rows. rewrite Hat.
    apply (count_none (λ ir : nat * row, isna (amount ir.2))).
    apply Forall_fmap. eapply Forall_impl; [exact Hq|].
    intros [i r]. unfold quality. simpl. intros [_ Hge]%andb_true_iff.
    apply ge0_notna in Hge. unfold notna in Hge. by destruct (isna (amount r)). }
  assert (Hdup : duplicates to_datetime df = 0).
  { unfold duplicates. rewrite rows_after_null, Hqr.
    apply count_duplicated_NoDup; [|by intros ir _ ?%elem_of_nil].
    rewrite <- list_fmap_compose. rewrite <- order_ids_annotated in Hnd.
    exact Hnd. }
  assert (Hlen : len (transform_out to_datetime df) = len df).
  { unfold len at 1. by rewrite Hrows, length_fmap, length_annotated. }
  unfold transform_log. rewrite Hts, Hneg, Hnull, Hdup, Hlen, Nat.sub_diag. done.
Qed.

(** A row of the output with label [i] is the [i]-th decoded record, with
    the timestamp parsed at position [i] of the column, and it passed the
    quality filters. *)
Lemma output_row_origin rs out i r' :
  (transform_data to_datetime (DataFrame_of rs)).2 = Return out →
  (i, r') ∈ rows out →
  ∃ r, rs !! i = Some r
    ∧ let parsed := to_datetime ((λ r, cell (j_timestamp r)) <$> rs) i in
      r' = finalize (with_ts_clean parsed (to_row r))
      ∧ notna parsed = true
      ∧ ge0 (cell (j_amount r)) = true.
Proof.
  intros [_ ->]%transform_data_Return. rewrite rows_transform_out.
  intros (r0 & [= ->] & Hq)%elem_of_clean_rows. simpl in Hq.
  unfold quality_rows, annotated, set_ts_clean, DataFrame_of in Hq.
  cbn [rows] in Hq.
  apply list_elem_of_filter in Hq as [Hq Hin]. simpl in Hq.
  apply elem_of_lookup_imap in Hin as (k & [j x] & [= -> ->] & Hl).
  apply list_lookup_imap_Some in Hl as (r & Hr & [= -> ->]).
  exists r. split; [done|]. simpl.
  assert (E : (λ ir : nat * row, timestamp ir.2) <$> imap (λ i r, (i, to_row r)) rs
              = (λ r, cell (j_timestamp r)) <$> rs).
  { apply list_eq. intros j.
    rewrite !list_lookup_fmap, list_lookup_imap. by destruct (rs !! j). }
  rewrite E in Hq |- *. split; [done|].
  apply Is_true_true_1, andb_true_iff in Hq as [Hts Ha]. by split.
Qed.

Lemma annotated_DataFrame_of rs :
  annotated to_datetime (DataFrame_of rs)
  = imap (λ i r, (i, with_ts_clean
                       (to_datetime ((λ r, cell (j_timestamp r)) <$> rs) i)
                       (to_row r))) rs.
Proof.
  unfold annotated, set_ts_clean, DataFrame_of. cbn [rows].
  assert (E : (λ ir : nat * row, timestamp ir.2) <$> imap (λ i r, (i, to_row r)) rs
              = (λ r, cell (j_timestamp r)) <$> rs).
  { apply list_eq. intros j.
    rewrite !list_lookup_fmap, list_lookup_imap. by destruct (rs !! j). }
  rewrite E. apply list_eq. intros j.
  rewrite !list_lookup_imap. by destruct (rs !! j).
Qed.

(** A record whose timestamp parses and whose amount is a number that is
    not negative has its row in the output, unless a record above it that
    is as good carries the same order id. *)
Lemma output_row_kept rs i r :
  rs !! i = Some r →
  notna (to_datetime ((λ r, cell (j_timestamp r)) <$> rs) i) = true →
  ge0 (cell (j_amount r)) = true →
  (∀ j r0, j < i → rs !! j = Some r0 →
     notna (to_datetime ((λ r, cell (j_timestamp r)) <$> rs) j) = true →
     ge0 (cell (j_amount r0)) = true →
     id_cell (j_order_id r0) ≠ id_cell (j_order_id r)) →
  (i, finalize (with_ts_clean
                  (to_datetime ((λ r, cell (j_timestamp r)) <$> rs) i)
                  (to_row r)))
    ∈ rows (transform_out to_datetime (DataFrame_of rs)).
Proof.
  intros Hr Hts Ham Hfirst.
  set (parsed := to_datetime ((λ r, cell (j_timestamp r)) <$> rs)) in *.
  set (f := λ (k : nat) (r : record), (k, with_ts_clean (parsed k) (to_row r))).
  rewrite rows_transform_out. unfold clean_rows.
  apply (list_elem_of_fmap_2 (prod_map id finalize) _ (f i r)).
  apply elem_of_drop_duplicates.
  unfold quality_rows. rewrite annotated_DataFrame_of. fold parsed. fold f.
  rewrite <- (take_drop_middle rs i r Hr), imap_app, imap_cons.
  assert (Hlen : length (take i rs) = i).
  { apply length_take_le. apply lookup_lt_Some in Hr. lia. }
  rewrite Hlen, Nat.add_0_r, filter_app, filter_cons.
  assert (Hq : quality (f i r).2 = true).
  { unfold quality, f. simpl. by rewrite Hts, Ham. }
  rewrite decide_True by by apply Is_true_true_2.
  eexists _, _. split; [reflexivity|]. split; [by intros ?%elem_of_nil|].
  intros ([j x] & Hid & [Hqx Hin]%list_elem_of_filter)%list_elem_of_fmap.
  apply elem_of_lookup_imap in Hin as (k & r0 & [= -> ->] & Hk).
  apply lookup_take_Some in Hk as [Hk Hlt].
  apply Is_true_true_1 in Hqx. unfold quality in Hqx. simpl in Hqx.
  apply andb_true_iff in Hqx as [Hq1 Hq2].
  simpl in Hid. by apply (Hfirst k r0 Hlt Hk Hq1 Hq2).
Qed.

End TransformFacts.

Section RemovalCounts.
Context (to_datetime : list (option string) → nat → option datetime).

Lemma count_rows_split (p : row → bool) df :
  len df = count_rows (λ r, negb (p r)) df + len (filter_rows p df).
Proof.
  unfold len, count_rows, filter_rows. cbn [rows].
  pose proof (length_filter_split (λ ir : nat * row, p ir.2) (rows df)). lia.
Qed.

Lemma count_rows_ext (p q : row → bool) df :
  (∀ r, p r = q r) → count_rows p df = count_rows q df.
Proof.
  intros H. unfold count_rows. f_equal.
  apply (filter_bool_ext (λ ir : nat * row, p ir.2) (λ ir, q ir.2)).
  apply Forall_forall. by intros [i r] _.
Qed.

Lemma count_rows_not_ge0 df :
  count_rows (λ r, negb (ge0 (amount r))) df
  = count_rows (λ r, lt0 (amount r)) df + count_rows (λ r, isna (amount r)) df.
Proof.
  unfold count_rows. induction (rows df) as [|[i r] l IH]; [done|].
  rewrite !filter_cons. simpl.
  destruct (amount r) as [q|]; simpl.
  - rewrite Qltb_0_ge. destruct (Qle_bool 0 q); simpl; lia.
  - lia.
Qed.

(** What each step removes, against what it counts.  The timestamp step,
    the null-amount step and the de-duplication step remove as many rows as
    they count.  The negative-amount step, when it finds a negative amount,
    removes the rows it counted and, with them, every row whose amount is
    missing. *)
Lemma steps_remove df :
  len df = invalid_ts to_datetime df + len (after_timestamps to_datetime df)
  ∧ len (after_timestamps to_datetime df)
    = (if (0 <? negative_amounts to_datetime df)%nat
       then negative_amounts to_datetime df
            + count_rows (λ r, isna (amount r)) (after_timestamps to_datetime df)
       else 0)
      + len (after_negative to_datetime df)
  ∧ len (after_negative to_datetime df)
    = null_amounts to_datetime df + len (after_null to_datetime df)
  ∧ len (after_null to_datetime df)
    = duplicates to_datetime df + len (after_duplicates to_datetime df)
  ∧ len (after_duplicates to_datetime df) = len (transform_out to_datetime df).
Proof.
  split; [|split; [|split; [|split]]].
  - unfold invalid_ts, after_timestamps, assign, len. cbn [rows].
    rewrite length_fmap.
    pose proof (count_rows_split (λ r, notna (ts_clean r))
                  (set_ts_clean to_datetime df)) as H.
    rewrite (count_rows_ext _ (λ r, isna (ts_clean r))) in H
      by (intros r; unfold notna; by destruct (isna _)).
    unfold len, set_ts_clean in H. cbn [rows] in H.
    rewrite length_imap in H. exact H.
  - unfold after_negative, negative_amounts.
    destruct (0 <? _)%nat; [|done].
    rewrite <- count_rows_not_ge0. apply count_rows_split.
  - unfold null_amounts, after_null.
    rewrite (count_rows_split (λ r, notna (amount r))).
    f_equal. apply count_rows_ext. intros r. unfold notna. by destruct (isna _).
  - unfold duplicates, after_duplicates, len. cbn [rows].
    by rewrite count_duplicated_length.
  - unfold transform_out, select_clean, assign, len. cbn [rows].
    by rewrite !length_fmap.
Qed.
End RemovalCounts.

Lemma Reference_null_is_NaT : null_is_NaT Reference.to_datetime.
Proof. intros col k H. unfold Reference.to_datetime. by rewrite H. Qed.

(** C1.  Every record of the dataset the Transformer returns has an amount
    that is a number and is not negative, a parsed timestamp and a category,
    and no two records of it share an order id.  [load_data] hands this very
    frame to the Parquet writer. *)
Theorem C1_output_records_are_clean
    (to_datetime : list (option string) → nat → option datetime)
    (df out : DataFrame) :
  (transform_data to_datetime df).2 = Return out →
  Forall (λ ir, clean_record ir.2) (rows out) ∧ NoDup (order_ids out).
Proof.
  intros [_ ->]%transform_data_Return. unfold order_ids.
  rewrite rows_transform_out. split.
  - apply Forall_forall. intros ir (r & -> & Hq)%elem_of_clean_rows.
    apply finalize_clean. unfold quality_rows in Hq.
    apply list_elem_of_filter in Hq as [Hq _]. by apply Is_true_true_1.
  - unfold clean_rows. rewrite <- list_fmap_compose.
    apply (drop_duplicates_NoDup [] (quality_rows to_datetime df)).
Qed.

Lemma C1_output_records_are_clean_witness :
  (transform_data Reference.to_datetime Examples.mixed).2
    = Return Examples.mixed_out
  ∧ Forall (λ ir, clean_record ir.2) (rows Examples.mixed_out)
  ∧ NoDup (order_ids Examples.mixed_out).
Proof.
  split; [vm_compute; reflexivity|].
  apply (C1_output_records_are_clean Reference.to_datetime Examples.mixed).
  vm_compute. reflexivity.
Defined.

(** One alternative of a membership in the log: a line of another kind, or
    the line of the step. *)
Ltac log_case H :=
  first
    [ discriminate H
    | let Hpos := fresh in
      let Heq := fresh in
      destruct H as [Hpos Heq];
      first [ discriminate Heq | injection Heq as ->; by split ] ].

(** C3, as the code has it.  For a frame that passes schema validation, the
    Transformer prints the count of a cleaning step exactly when the count
    it computed is positive; a step that found nothing prints nothing. *)
Theorem C3_counts_are_printed_when_positive
    (to_datetime : list (option string) → nat → option datetime)
    (df : DataFrame) (n : nat) :
  schema_ok df →
  let log := trace (transform_data to_datetime df) in
  (Say (RemovingInvalidTs n) ∈ log ↔ n = invalid_ts to_datetime df ∧ 0 < n)
  ∧ (Say (RemovingNegative n) ∈ log ↔ n = negative_amounts to_datetime df ∧ 0 < n)
  ∧ (Say (RemovingNull n) ∈ log ↔ n = null_amounts to_datetime df ∧ 0 < n)
  ∧ (Say (RemovingDuplicates n) ∈ log ↔ n = duplicates to_datetime df ∧ 0 < n).
Proof.
  intros Hs log. subst log. unfold trace. rewrite transform_data_run by done.
  cbn [fst]. unfold transform_log.
  repeat setoid_rewrite elem_of_app.
  repeat setoid_rewrite elem_of_said_if.
  repeat setoid_rewrite list_elem_of_singleton.
  repeat setoid_rewrite Nat.ltb_lt.
  split; [|split; [|split]]; (split; intros Hm; [|destruct Hm as [-> Hm]; auto 10]).
  all: destruct Hm as [Hm|[Hm|[Hm|[Hm|[Hm|[Hm|Hm]]]]]]; log_case Hm.
Qed.

Lemma C3_counts_are_printed_when_positive_witness :
  schema_ok Examples.mixed
  ∧ (Say (RemovingInvalidTs 1)
       ∈ trace (transform_data Reference.to_datetime Examples.mixed)
     ↔ 1 = invalid_ts Reference.to_datetime Examples.mixed ∧ 0 < 1)
  ∧ (Say (RemovingNegative 1)
       ∈ trace (transform_data Reference.to_datetime Examples.mixed)
     ↔ 1 = negative_amounts Reference.to_datetime Examples.mixed ∧ 0 < 1)
  ∧ (Say (RemovingNull 1)
       ∈ trace (transform_data Reference.to_datetime Examples.mixed)
     ↔ 1 = null_amounts Reference.to_datetime Examples.mixed ∧ 0 < 1)
  ∧ (Say (RemovingDuplicates 1)
       ∈ trace (transform_data Reference.to_datetime Examples.mixed)
     ↔ 1 = duplicates Reference.to_datetime Examples.mixed ∧ 0 < 1).
Proof.
  split; [unfold schema_ok; compute_done|].
  apply (C3_counts_are_printed_when_positive Reference.to_datetime Examples.mixed 1).
  unfold schema_ok. compute_done.
Defined.

(** C3 fails as stated: for a frame that needs no cleaning the Transformer
    prints the phase banner and the number of records, and none of the four
    counts. *)
Lemma C3_counterexample :
  schema_ok Examples.clean
  ∧ transform_data Reference.to_datetime Examples.clean
    = ([Say (Phase "TRANSFORM PHASE"); Say (Transformed 1)],
       Return Examples.clean_out).
Proof. split; [unfold schema_ok; compute_done | by vm_compute]. Qed.

(** C4, as the code has it.  On a frame with the raw columns in which every
    timestamp parses, every amount is a number that is not negative and no
    order id repeats, the Transformer drops nothing: it prints no removal
    count and returns one row for each row, in order.  What it returns has
    no [timestamp] column: given its own output, the Transformer stops at
    schema validation with status 1. *)
Theorem C4_no_drops_on_clean_input
    (to_datetime : list (option string) → nat → option datetime)
    (df : DataFrame) :
  schema_ok df →
  Forall (λ ir, quality ir.2 = true) (annotated to_datetime df) →
  NoDup (order_ids df) →
  ∃ out,
    transform_data to_datetime df
    = ([Say (Phase "TRANSFORM PHASE"); Say (Transformed (len df))], Return out)
    ∧ rows out = prod_map id finalize <$> annotated to_datetime df
    ∧ len out = len df
    ∧ transform_data to_datetime out
      = ([Say (Phase "TRANSFORM PHASE"); Say (ErrMissingColumns {["timestamp"]})],
         Exit 1).
Proof.
  intros Hs Hq Hnd.
  destruct (clean_input_log to_datetime df Hq Hnd) as [Hrows Hlog].
  exists (transform_out to_datetime df).
  split; [by rewrite transform_data_run, Hlog|]. split; [done|]. split.
  - unfold len at 1. by rewrite Hrows, length_fmap, length_annotated.
  - apply (transform_rerun_exits to_datetime df). by rewrite transform_data_run.
Qed.

Lemma C4_no_drops_on_clean_input_witness :
  schema_ok Examples.clean
  ∧ Forall (λ ir, quality ir.2 = true) (annotated Reference.to_datetime Examples.clean)
  ∧ NoDup (order_ids Examples.clean)
  ∧ ∃ out,
      transform_data Reference.to_datetime Examples.clean
      = ([Say (Phase "TRANSFORM PHASE"); Say (Transformed (len Examples.clean))],
         Return out)
      ∧ rows out = prod_map id finalize <$> annotated Reference.to_datetime Examples.clean
      ∧ len out = len Examples.clean
      ∧ transform_data Reference.to_datetime out
        = ([Say (Phase "TRANSFORM PHASE"); Say (ErrMissingColumns {["timestamp"]})],
           Exit 1).
Proof.
  assert (H1 : schema_ok Examples.clean) by (unfold schema_ok; compute_done).
  assert (H2 : Forall (λ ir, quality ir.2 = true)
                 (annotated Reference.to_datetime Examples.clean))
    by (vm_compute; repeat constructor).
  assert (H3 : NoDup (order_ids Examples.clean))
    by (vm_compute; repeat constructor; by intros ?%elem_of_nil).
  split; [done|]. split; [done|]. split; [done|].
  exact (C4_no_drops_on_clean_input Reference.to_datetime Examples.clean H1 H2 H3).
Defined.

(** C4 fails as stated: the Transformer does not succeed on its own
    output. *)
Lemma C4_counterexample :
  (transform_data Reference.to_datetime Examples.clean).2 = Return Examples.clean_out
  ∧ transform_data Reference.to_datetime Examples.clean_out
    = ([Say (Phase "TRANSFORM PHASE"); Say (ErrMissingColumns {["timestamp"]})],
       Exit 1).
Proof. split; by vm_compute. Qed.

(** C10.  Schema validation looks only at the union of the keys of the
    decoded records.  When every required field is a key of at least one
    record, validation passes, also if single records lack fields.  A field
    a record lacks is a missing value in its row, and the transform returns
    a frame in which a record without [amount] or without [timestamp] has no
    row.  A record without [category] is not dropped for that: when its
    timestamp parses, its amount is a number that is not negative and no
    such record above it has its order id, its row is in the output, with
    its own id, user and amount, and with the category "Unknown"; and
    whenever its row is in the output the category is "Unknown". *)
Theorem C10_schema_is_checked_on_the_union_of_keys
    (to_datetime : list (option string) → nat → option datetime)
    (rs : list record) :
  null_is_NaT to_datetime →
  (∀ c, c ∈ required_cols → ∃ r, r ∈ rs ∧ c ∈ keys r) →
  validate_schema (DataFrame_of rs) = ([], Return true)
  ∧ (∀ rs', ⋃ (keys <$> rs') = ⋃ (keys <$> rs) →
       validate_schema (DataFrame_of rs') = ([], Return true))
  ∧ ∃ log out,
      transform_data to_datetime (DataFrame_of rs) = (log, Return out)
      ∧ ∀ i r, rs !! i = Some r →
          let parsed := to_datetime ((λ r, cell (j_timestamp r)) <$> rs) in
          rows (DataFrame_of rs) !! i = Some (i, to_row r)
          ∧ (j_amount r = Absent →
               amount (to_row r) = None ∧ i ∉ labels out)
          ∧ (j_timestamp r = Absent →
               timestamp (to_row r) = None ∧ i ∉ labels out)
          ∧ (j_category r = Absent →
               category (to_row r) = None
               ∧ (∀ r', (i, r') ∈ rows out → category r' = Some "Unknown")
               ∧ (is_Some (parsed i) →
                  (∃ q, cell (j_amount r) = Some q ∧ (0 <= q)%Q) →
                  (∀ j r0, j < i → rs !! j = Some r0 →
                     is_Some (parsed j) →
                     (∃ q, cell (j_amount r0) = Some q ∧ (0 <= q)%Q) →
                     id_cell (j_order_id r0) ≠ id_cell (j_order_id r)) →
                  ∃ r', (i, r') ∈ rows out
                        ∧ category r' = Some "Unknown"
                        ∧ order_id r' = id_cell (j_order_id r)
                        ∧ user_id r' = cell (j_user_id r)
                        ∧ amount r' = cell (j_amount r)
                        ∧ ts_clean r' = parsed i)).
Proof.
  intros Hnull Hkeys%schema_ok_DataFrame_of.
  split; [by apply validate_schema_ok|]. split.
  { intros rs' E. apply validate_schema_ok.
    unfold schema_ok in *. by rewrite columns_DataFrame_of, E. }
  destruct (transform_data_returns to_datetime _ Hkeys) as (log & out & Hrun).
  exists log, out. split; [done|].
  assert (Hout : (transform_data to_datetime (DataFrame_of rs)).2 = Return out)
    by by rewrite Hrun.
  intros i r Hr parsed. split; [|split; [|split]].
  - unfold DataFrame_of. cbn [rows]. by rewrite list_lookup_imap, Hr.
  - intros Ha. split; [unfold to_row; cbn; by rewrite Ha|].
    intros ([j r'] & -> & Hin)%list_elem_of_fmap. simpl in Hr.
    destruct (output_row_origin _ _ _ _ _ Hout Hin) as (r0 & Hr0 & _ & _ & Hge).
    rewrite Hr in Hr0. injection Hr0 as <-. by rewrite Ha in Hge.
  - intros Ht. split; [unfold to_row; cbn; by rewrite Ht|].
    intros ([j r'] & -> & Hin)%list_elem_of_fmap. simpl in Hr.
    destruct (output_row_origin _ _ _ _ _ Hout Hin) as (r0 & Hr0 & _ & Hts & _).
    rewrite Hr in Hr0. injection Hr0 as <-.
    rewrite Hnull in Hts; [done|].
    rewrite list_lookup_fmap, Hr. simpl. by rewrite Ht.
  - intros Hc. split; [unfold to_row; cbn; by rewrite Hc|]. split.
    + intros r' Hin.
      destruct (output_row_origin _ _ _ _ _ Hout Hin) as (r0 & Hr0 & -> & _ & _).
      rewrite Hr in Hr0. injection Hr0 as <-. simpl. by rewrite Hc.
    + intros [t Ht] Ham Hfirst.
      apply transform_data_Return in Hout as [_ ->].
      eexists. split.
      * apply (output_row_kept to_datetime rs i r Hr).
        -- fold parsed. by rewrite Ht.
        -- by apply ge0_Some.
        -- intros j r0 Hj Hr0 Hq1 Hq2. apply (Hfirst j r0 Hj Hr0).
           ++ fold parsed in Hq1. by destruct (parsed j).
           ++ by apply ge0_Some.
      * simpl. by rewrite Hc.
Qed.

Lemma C10_schema_is_checked_on_the_union_of_keys_witness :
  null_is_NaT Reference.to_datetime
  ∧ (∀ c, c ∈ required_cols → ∃ r, r ∈ Examples.partial ∧ c ∈ keys r)
  ∧ validate_schema (DataFrame_of Examples.partial) = ([], Return true)
  ∧ (∀ rs', ⋃ (keys <$> rs') = ⋃ (keys <$> Examples.partial) →
       validate_schema (DataFrame_of rs') = ([], Return true))
  ∧ ∃ log out,
      transform_data Reference.to_datetime (DataFrame_of Examples.partial)
      = (log, Return out)
      ∧ ∀ i r, Examples.partial !! i = Some r →
          let parsed :=
            Reference.to_datetime
              ((λ r, cell (j_timestamp r)) <$> Examples.partial) in
          rows (DataFrame_of Examples.partial) !! i = Some (i, to_row r)
          ∧ (j_amount r = Absent →
               amount (to_row r) = None ∧ i ∉ labels out)
          ∧ (j_timestamp r = Absent →
               timestamp (to_row r) = None ∧ i ∉ labels out)
          ∧ (j_category r = Absent →
               category (to_row r) = None
               ∧ (∀ r', (i, r') ∈ rows out → category r' = Some "Unknown")
               ∧ (is_Some (parsed i) →
                  (∃ q, cell (j_amount r) = Some q ∧ (0 <= q)%Q) →
                  (∀ j r0, j < i → Examples.partial !! j = Some r0 →
                     is_Some (parsed j) →
                     (∃ q, cell (j_amount r0) = Some q ∧ (0 <= q)%Q) →
                     id_cell (j_order_id r0) ≠ id_cell (j_order_id r)) →
                  ∃ r', (i, r') ∈ rows out
                        ∧ category r' = Some "Unknown"
                        ∧ order_id r' = id_cell (j_order_id r)
                        ∧ user_id r' = cell (j_user_id r)
                        ∧ amount r' = cell (j_amount r)
                        ∧ ts_clean r' = parsed i)).
Proof.
  assert (H1 : null_is_NaT Reference.to_datetime) by exact Reference_null_is_NaT.
  assert (H2 : ∀ c, c ∈ required_cols → ∃ r, r ∈ Examples.partial ∧ c ∈ keys r).
  { apply schema_ok_DataFrame_of. unfold schema_ok. compute_done. }
  split; [done|]. split; [done|].
  exact (C10_schema_is_checked_on_the_union_of_keys
           Reference.to_datetime Examples.partial H1 H2).
Defined.

(** The three records of the example: the one without [category] is kept,
    as the only row of the output, with the category "Unknown"; the ones
    without [amount] and without [timestamp] are dropped. *)
Example scenario_partial_records :
  (λ ir, (ir.1, order_id ir.2, category ir.2, amount ir.2))
    <$> rows (transform_out Reference.to_datetime (DataFrame_of Examples.partial))
  = [(0, Key "p", Some "Unknown", Some (12 # 1)%Q)].
Proof. by vm_compute. Qed.

(** ** Load and aggregate *)

Lemma load_data_run (to_parquet : DataFrame → option Q) df :
  load_data to_parquet df
  = match to_parquet df with
    | Some file_size => ([Say (Phase "LOAD PHASE"); Say (Loaded file_size)], Return ())
    | None => ([Say (Phase "LOAD PHASE"); Say ErrWriting], Exit 1)
    end.
Proof. unfold load_data, write_parquet. by destruct (to_parquet df). Qed.

Lemma run_analytics_returns connects engine df :
  (run_analytics connects engine df).2 = Return ().
Proof.
  unfold run_analytics, connect, execute.
  destruct connects; [|reflexivity].
  run_io. destruct (engine preview_category_query); [|reflexivity].
  run_io. by destruct (engine preview_summary_query).
Qed.

Lemma analytics_run engine :
  analytics true engine true
  = ([Say (Heading "TOP CATEGORIES BY REVENUE")]
     ++ attempt engine category_query "category"
     ++ [Say (Heading "DAILY REVENUE TREND")]
     ++ attempt engine daily_query "daily revenue"
     ++ [Say (Heading "OVERALL SUMMARY")]
     ++ attempt engine summary_query "summary"
     ++ [Say AnalysisComplete],
     Return ()).
Proof.
  unfold analytics, attempt, connect, execute.
  destruct (engine category_query), (engine daily_query), (engine summary_query);
    reflexivity.
Qed.

(** In the standalone script every query is attempted whatever the others
    do, a failure is reported under the name of its query, and the script
    runs to its end. *)
Lemma analytics_attempts_every_query engine :
  (analytics true engine true).2 = Return ()
  ∧ Exec category_query ∈ trace (analytics true engine true)
  ∧ Exec daily_query ∈ trace (analytics true engine true)
  ∧ Exec summary_query ∈ trace (analytics true engine true)
  ∧ (engine category_query = None →
       Say (ErrQuery "category") ∈ trace (analytics true engine true))
  ∧ (engine daily_query = None →
       Say (ErrQuery "daily revenue") ∈ trace (analytics true engine true))
  ∧ (engine summary_query = None →
       Say (ErrQuery "summary") ∈ trace (analytics true engine true)).
Proof.
  unfold trace. rewrite analytics_run. cbn [fst snd]. unfold attempt.
  split; [done|].
  repeat split; try intros ->;
    repeat (rewrite elem_of_app || rewrite elem_of_cons); auto 20.
Qed.

(** C5, at an input where the code departs from it.  In the preview that
    [main] runs after Load, one handler guards both queries: when the
    category query fails, the failure is reported and the run goes on, but
    the summary query is never sent to the engine.  The standalone script,
    given the same engine, reports the failure and still sends its two other
    queries. *)
Theorem C5_preview_stops_at_first_failure :
  run_analytics true Examples.category_fails Examples.clean_out
  = ([Say (Phase "ANALYTICS PREVIEW"); Exec preview_category_query;
      Say WarnAnalyticsFailed], Return ())
  ∧ (Exec preview_summary_query
       ∉ trace (run_analytics true Examples.category_fails Examples.clean_out))
  ∧ analytics true Examples.category_fails true
    = ([Say (Heading "TOP CATEGORIES BY REVENUE");
        Exec category_query; Say (ErrQuery "category");
        Say (Heading "DAILY REVENUE TREND");
        Exec daily_query; Say (Result []);
        Say (Heading "OVERALL SUMMARY");
        Exec summary_query; Say (Result []);
        Say AnalysisComplete], Return ()).
Proof.
  split; [reflexivity|]. split; [|reflexivity].
  unfold trace. cbn.
  intros Hin. repeat (apply elem_of_cons in Hin as [Hin|Hin]; [discriminate Hin|]).
  by apply elem_of_nil in Hin.
Qed.

(** C6, at the entry point that departs from it.  Whatever the engine and
    the frame, no query that the preview in [run_analytics] sends asks for a
    minimum or a maximum.  Its summary query, the only one it sends without
    a grouping, selects the order count, the number of distinct users, and
    the total revenue and the average order value rounded to 2 decimals;
    the table printed under "Summary Statistics" is the engine's answer to
    that query.  The standalone script, on the same engine, sends a summary
    query that selects these four and also the minimum and the maximum
    order value rounded to 2 decimals, and prints the engine's answer to
    it. *)
Theorem C6_preview_summary_has_no_min_max
    (connects : bool) (engine : query → option table) (df : DataFrame) :
  let preview := trace (run_analytics connects engine df) in
  let script := trace (analytics connects engine true) in
  (∀ q, Exec q ∈ preview →
        Forall (λ ne, uses_min_or_max ne.2 = false) (select q))
  ∧ (∀ q, Exec q ∈ preview → group_by q = None → q = preview_summary_query)
  ∧ select preview_summary_query
    = [("total_orders", CountStar); ("unique_users", CountDistinct UserId);
       ("total_revenue", Round (Sum Amount) 2);
       ("avg_order", Round (Avg Amount) 2)]
  ∧ (∀ t, connects = true → is_Some (engine preview_category_query) →
          engine preview_summary_query = Some t →
          ∃ before,
            preview = before ++ [Exec preview_summary_query;
                                 Say (Heading "Summary Statistics");
                                 Say (Result t)])
  ∧ (connects = true → Exec summary_query ∈ script)
  ∧ select summary_query
    = [("total_orders", CountStar); ("unique_users", CountDistinct UserId);
       ("total_revenue", Round (Sum Amount) 2);
       ("avg_order_value", Round (Avg Amount) 2);
       ("min_order", Round (Min Amount) 2);
       ("max_order", Round (Max Amount) 2)]
  ∧ (∀ t, connects = true → engine summary_query = Some t →
          ∃ before,
            script = before ++ [Say (Heading "OVERALL SUMMARY");
                                Exec summary_query; Say (Result t);
                                Say AnalysisComplete]).
Proof.
  intros preview script. subst preview script.
  assert (Hsent : ∀ q, Exec q ∈ trace (run_analytics connects engine df) →
                    q = preview_category_query ∨ q = preview_summary_query).
  { unfold trace, run_analytics, connect, execute. intros q.
    destruct connects; [|run_io; intros H; trace_cases H].
    destruct (engine preview_category_query);
      [|run_io; intros H; trace_cases H; injection H as ->; auto].
    destruct (engine preview_summary_query); run_io;
      intros H; trace_cases H; injection H as ->; auto. }
  split; [|split; [|split; [done|split; [|split; [|split; [done|]]]]]].
  - intros q [->| ->]%Hsent; repeat constructor.
  - intros q [->| ->]%Hsent; [discriminate|done].
  - intros t -> [t1 E1] E2.
    unfold trace, run_analytics, connect, execute. rewrite E1, E2. run_io.
    by exists [Say (Phase "ANALYTICS PREVIEW"); Exec preview_category_query;
               Say (Heading "Revenue by Category"); Say (Result t1)].
  - intros ->. unfold trace. rewrite analytics_run. cbn [fst]. unfold attempt.
    repeat (rewrite elem_of_app || rewrite elem_of_cons). auto 20.
  - intros t -> E. unfold trace. rewrite analytics_run. cbn [fst].
    unfold attempt at 3. rewrite E.
    exists ([Say (Heading "TOP CATEGORIES BY REVENUE")]
            ++ attempt engine category_query "category"
            ++ [Say (Heading "DAILY REVENUE TREND")]
            ++ attempt engine daily_query "daily revenue").
    by rewrite <- !app_assoc.
Qed.

(** ** The run *)

Section MainFacts.
Context (json_loads : string → option json).
Context (foreign_frame : list json → outcome DataFrame).
Context (to_datetime : list (option string) → nat → option datetime).

(** The status of a run on input of the data model, by what it meets on
    its way. *)
Lemma main_status w :
  in_data_model json_loads (input_file w) →
  exit_status (main json_loads foreign_frame to_datetime w)
  = match input_file w with
    | Missing | Broken _ | Garbled _ => 1
    | Content lines =>
        let df := DataFrame_of (records json_loads w) in
        match records json_loads w with
        | [] => 1
        | _ :: _ =>
            if decide (schema_ok df) then
              match to_parquet w (transform_out to_datetime df) with
              | Some _ => 0
              | None => 1
              end
            else 1
        end
    end%Z.
Proof.
  intros Hm. unfold exit_status, main, records, decoded.
  rewrite (outcome_bind_return _ _ ()) by done.
  pose proof (extract_data_outcome json_loads foreign_frame (input_file w) Hm) as He.
  destruct (input_file w) as [|lines|lines|lines]; cbn [lines_read].
  - by rewrite (outcome_bind_exit _ _ 1).
  - cbn zeta. destruct (omap order_of (omap json_loads lines)) as [|r rs] eqn:E.
    + by rewrite (outcome_bind_exit _ _ 1).
    + rewrite (outcome_bind_return _ _ _ He).
      pose proof (transform_data_outcome to_datetime (DataFrame_of (r :: rs))) as Ht.
      case_decide as Hs.
      * rewrite (outcome_bind_return _ _ _ Ht).
        pose proof (load_data_run (to_parquet w)
                      (transform_out to_datetime (DataFrame_of (r :: rs)))) as Hl.
        destruct (to_parquet w _) as [kb|].
        -- rewrite (outcome_bind_return (load_data _ _) _ ()) by by rewrite Hl.
           rewrite (outcome_bind_return _ _ () (run_analytics_returns _ _ _)).
           reflexivity.
        -- by rewrite (outcome_bind_exit (load_data _ _) _ 1) by by rewrite Hl.
      * by rewrite (outcome_bind_exit _ _ 1).
  - by rewrite (outcome_bind_exit _ _ 1).
  - destruct (extract_data json_loads foreign_frame (Garbled lines)) as [l o].
    simpl in He. subst o. reflexivity.
Qed.

End MainFacts.




(** ** Scenarios *)

(** A line with amount -5 is dropped by the negative-amount step, which
    reports one row, and its order id is not in the output. *)
Example scenario_negative_amount :
  trace (transform_data Reference.to_datetime
           (Examples.frame [Examples.line_a; Examples.line_x1]))
  = [Say (Phase "TRANSFORM PHASE"); Say (RemovingNegative 1);
     Say (Transformed 1); Say (RemovedQuality 1)]
  ∧ order_ids (transform_out Reference.to_datetime
                 (Examples.frame [Examples.line_a; Examples.line_x1]))
    = [Key "x"].
Proof. split; by vm_compute. Qed.

(** Of two lines with the order id "x", the output has one record, with the
    amount of the first line. *)
Example scenario_duplicate_order_id :
  trace (transform_data Reference.to_datetime
           (Examples.frame [Examples.line_x1; Examples.line_x2]))
  = [Say (Phase "TRANSFORM PHASE"); Say (RemovingDuplicates 1);
     Say (Transformed 1); Say (RemovedQuality 1)]
  ∧ (λ ir, (ir.1, order_id ir.2, amount ir.2))
      <$> rows (transform_out Reference.to_datetime
                  (Examples.frame [Examples.line_x1; Examples.line_x2]))
    = [(0, Key "x", Some (205 # 10))].
Proof. split; by vm_compute. Qed.

(** An empty input file ends the run in the Extractor, with status 1 and
    before anything is written. *)
Example scenario_empty_file :
  main Reference.json_loads Examples.no_frame Reference.to_datetime
    (World (Content []) (λ _, Some (3 # 2)%Q) true (λ _, Some []))
  = ([Say (Phase "ETL PIPELINE STARTING"); Say (Phase "EXTRACT PHASE");
      Say ErrNoValidData], Exit 1).
Proof. by vm_compute. Qed.
(** * Further properties *)

(** ** Extract *)

Section ExtractMore.
Context (json_loads : string → option json).


Lemma warnings_only_warn start lines e :
  e ∈ warnings json_loads start lines → ∃ k, e = Say (WarnInvalidJSON k).
Proof.
  revert start. induction lines as [|line rest IH]; intros start; simpl.
  { by intros ?%elem_of_nil. }
  intros [Hin|Hin]%elem_of_app; [|by eapply IH].
  destruct (malformed json_loads line); [|by apply elem_of_nil in Hin].
  apply list_elem_of_singleton in Hin. eauto.
Qed.

End ExtractMore.


Lemma labels_DataFrame_of (rs : list record) :
  labels (DataFrame_of rs) = seq 0 (length rs).
Proof.
  unfold labels, DataFrame_of. cbn [rows]. rewrite fmap_imap.
  apply list_eq. intros j. rewrite list_lookup_imap.
  destruct (decide (j < length rs)) as [Hj|Hj].
  - rewrite lookup_seq_lt by done.
    destruct (lookup_lt_is_Some_2 rs j Hj) as [x ->]. done.
  - rewrite lookup_seq_ge by lia. by rewrite lookup_ge_None_2 by lia.
Qed.



(** ** Transform *)

(** X3.  Which rows the Transformer keeps.  A row is in the output exactly
    when, with its parsed timestamp, it passes the quality checks (the
    timestamp parsed, the amount is a number that is not negative) and no
    row above it that passes them carries the same order id; the output row
    is then the input row with its category defaulted and its date derived.
    So a good row is never dropped, and a repeated order id survives through
    its first occurrence that is itself good. *)
Theorem transform_keeps_exactly_the_good_rows
    (to_datetime : list (option string) → nat → option datetime)
    (df out : DataFrame) (ir : nat * row) :
  (transform_data to_datetime df).2 = Return out →
  ir ∈ rows out
  ↔ ∃ above x below,
      annotated to_datetime df = above ++ x :: below
      ∧ ir = (x.1, finalize x.2)
      ∧ quality x.2 = true
      ∧ ∀ y, y ∈ above → quality y.2 = true → order_id y.2 ≠ order_id x.2.
Proof.
  intros [_ ->]%transform_data_Return. rewrite rows_transform_out.
  unfold clean_rows, quality_rows. rewrite list_elem_of_fmap. split.
  - intros (x & -> & (q1 & q2 & Hq & _ & Hn)%elem_of_drop_duplicates).
    apply (filter_eq_app_cons (λ ir, quality ir.2)) in Hq
      as (l1 & l2 & Hl & <- & Hx).
    exists l1, x, l2. split; [done|]. split; [by destruct x|]. split; [done|].
    intros y Hy Hqy Heq. apply Hn. rewrite <- Heq.
    apply (list_elem_of_fmap_2 (λ ir, order_id ir.2)).
    apply list_elem_of_filter. split; [by rewrite Hqy|done].
  - intros (l1 & x & l2 & Hl & -> & Hx & Hn).
    exists x. split; [by destruct x|].
    apply elem_of_drop_duplicates.
    exists (filter (λ ir, quality ir.2) l1), (filter (λ ir, quality ir.2) l2).
    split.
    { rewrite Hl, filter_app, filter_cons, Hx. done. }
    split; [by intros ?%elem_of_nil|].
    intros (y & Heq & [Hqy Hy]%list_elem_of_filter)%list_elem_of_fmap.
    apply (Hn y Hy); [by apply Is_true_true_1|done].
Qed.

Lemma transform_keeps_exactly_the_good_rows_witness :
  (transform_data Reference.to_datetime Examples.mixed).2 = Return Examples.mixed_out
  ∧ ((1, finalize (with_ts_clean (Some (Datetime 2024 1 2 10 0 0))
                     (to_row Examples.record_x1)))
       ∈ rows Examples.mixed_out
     ↔ ∃ above x below,
         annotated Reference.to_datetime Examples.mixed = above ++ x :: below
         ∧ (1, finalize (with_ts_clean (Some (Datetime 2024 1 2 10 0 0))
                           (to_row Examples.record_x1)))
           = (x.1, finalize x.2)
         ∧ quality x.2 = true
         ∧ ∀ y, y ∈ above → quality y.2 = true → order_id y.2 ≠ order_id x.2).
Proof.
  assert (H : (transform_data Reference.to_datetime Examples.mixed).2
              = Return Examples.mixed_out) by (vm_compute; reflexivity).
  split; [exact H|].
  exact (transform_keeps_exactly_the_good_rows
           Reference.to_datetime Examples.mixed Examples.mixed_out _ H).
Defined.

Lemma StronglySorted_sublist {A} (R : relation A) (k l : list A) :
  k `sublist_of` l → StronglySorted R l → StronglySorted R k.
Proof.
  induction 1 as [|x k l Hs IH|x k l Hs IH]; intros Hl; [done|..].
  - apply StronglySorted_inv in Hl as [Hl Hx]. constructor; [by apply IH|].
    eapply Forall_forall. intros y Hy. eapply Forall_forall in Hx; [exact Hx|].
    by eapply elem_of_sublist.
  - apply StronglySorted_inv in Hl as [Hl _]. by apply IH.
Qed.

Lemma StronglySorted_seq (k n : nat) : StronglySorted lt (seq k n).
Proof.
  revert k. induction n as [|n IH]; intros k; simpl; constructor; [apply IH|].
  apply Forall_forall. intros y [? ?]%elem_of_seq. lia.
Qed.

Section TransformMore.
Context (to_datetime : list (option string) → nat → option datetime).

Lemma labels_annotated df : fst <$> annotated to_datetime df = labels df.
Proof.
  unfold annotated, set_ts_clean, labels. cbn [rows].
  apply list_eq. intros j.
  rewrite !list_lookup_fmap, list_lookup_imap. by destruct (rows df !! j).
Qed.

Lemma labels_transform_out df :
  labels (transform_out to_datetime df) `sublist_of` labels df.
Proof.
  unfold labels at 1. rewrite rows_transform_out. unfold clean_rows.
  rewrite <- list_fmap_compose.
  rewrite (list_fmap_ext _ fst (drop_duplicates [] (quality_rows to_datetime df)))
    by by intros _ [] _.
  rewrite <- labels_annotated. apply fmap_sublist.
  etrans; [apply drop_duplicates_sublist|]. apply sublist_filter.
Qed.

End TransformMore.

(** X4.  The Transformer keeps the rows in their order: the index labels of
    its output are a subsequence of the labels of its input.  For a frame
    that the Extractor built, whose labels are 0, 1, 2, ..., the output
    labels are strictly increasing line positions. *)
Theorem transform_preserves_row_order
    (to_datetime : list (option string) → nat → option datetime)
    (df out : DataFrame) :
  (transform_data to_datetime df).2 = Return out →
  labels out `sublist_of` labels df
  ∧ (len out ≤ len df)%nat
  ∧ (∀ rs, df = DataFrame_of rs → StronglySorted lt (labels out)).
Proof.
  intros [_ ->]%transform_data_Return.
  pose proof (labels_transform_out to_datetime df) as Hsub.
  split; [done|]. split.
  - apply sublist_length in Hsub. unfold labels in Hsub.
    rewrite !length_fmap in Hsub. done.
  - intros rs ->. eapply StronglySorted_sublist; [exact Hsub|].
    rewrite labels_DataFrame_of. apply StronglySorted_seq.
Qed.

Lemma transform_preserves_row_order_witness :
  (transform_data Reference.to_datetime Examples.mixed).2 = Return Examples.mixed_out
  ∧ labels Examples.mixed_out `sublist_of` labels Examples.mixed
  ∧ (len Examples.mixed_out ≤ len Examples.mixed)%nat
  ∧ (∀ rs, Examples.mixed = DataFrame_of rs
           → StronglySorted lt (labels Examples.mixed_out)).
Proof.
  assert (H : (transform_data Reference.to_datetime Examples.mixed).2
              = Return Examples.mixed_out) by (vm_compute; reflexivity).
  split; [exact H|].
  exact (transform_preserves_row_order
           Reference.to_datetime Examples.mixed Examples.mixed_out H).
Defined.

(** X5.  The Transformer alters no business value.  A row of its output
    with label [i] is the [i]-th decoded record: same order id, same user
    id, same amount; the category is the record's, or "Unknown" when the
    record has none; the raw timestamp is gone and in its place are the
    parsed timestamp and its calendar date, which is a date and never the
    text "NaT". *)
Theorem transform_keeps_the_values
    (to_datetime : list (option string) → nat → option datetime)
    (rs : list record) (out : DataFrame) (i : nat) (r' : row) :
  (transform_data to_datetime (DataFrame_of rs)).2 = Return out →
  (i, r') ∈ rows out →
  ∃ r t,
    rs !! i = Some r
    ∧ to_datetime ((λ r, cell (j_timestamp r)) <$> rs) i = Some t
    ∧ order_id r' = id_cell (j_order_id r)
    ∧ user_id r' = cell (j_user_id r)
    ∧ amount r' = cell (j_amount r)
    ∧ category r' = Some (default "Unknown" (cell (j_category r)))
    ∧ timestamp r' = None
    ∧ ts_clean r' = Some t
    ∧ order_date r' = Some (date_str t)
    ∧ order_date r' ≠ Some "NaT".
Proof.
  intros Hout Hin.
  destruct (output_row_origin _ _ _ _ _ Hout Hin) as (r & Hr & -> & Hts & _).
  destruct (to_datetime _ i) as [t|] eqn:E; [|done].
  exists r, t. repeat (split; [done|]). simpl.
  split; [by destruct (cell (j_category r))|].
  repeat (split; [done|]). intros [= H].
  unfold date_str in H.
  destruct (zfill 4 (pretty (year t))) as [|a [|b [|c [|d s]]]] eqn:Ez;
    try discriminate H.
Qed.

Lemma transform_keeps_the_values_witness :
  (transform_data Reference.to_datetime
     (DataFrame_of [Examples.record_x1; Examples.record_x2])).2
  = Return (transform_out Reference.to_datetime
              (DataFrame_of [Examples.record_x1; Examples.record_x2]))
  ∧ (0, finalize (with_ts_clean (Some (Datetime 2024 1 2 10 0 0))
                    (to_row Examples.record_x1)))
    ∈ rows (transform_out Reference.to_datetime
              (DataFrame_of [Examples.record_x1; Examples.record_x2]))
  ∧ ∃ r t,
      [Examples.record_x1; Examples.record_x2] !! 0 = Some r
      ∧ Reference.to_datetime
          ((λ r, cell (j_timestamp r)) <$> [Examples.record_x1; Examples.record_x2]) 0
        = Some t
      ∧ Key "x" = id_cell (j_order_id r)
      ∧ Some 7%Z = cell (j_user_id r)
      ∧ Some (205 # 10)%Q = cell (j_amount r)
      ∧ Some "Home" = Some (default "Unknown" (cell (j_category r)))
      ∧ @None string = None
      ∧ Some (Datetime 2024 1 2 10 0 0) = Some t
      ∧ Some "2024-01-02" = Some (date_str t)
      ∧ Some "2024-01-02" ≠ Some "NaT".
Proof.
  assert (H : (transform_data Reference.to_datetime
                 (DataFrame_of [Examples.record_x1; Examples.record_x2])).2
              = Return (transform_out Reference.to_datetime
                          (DataFrame_of [Examples.record_x1; Examples.record_x2])))
    by (vm_compute; reflexivity).
  assert (Hin : (0, finalize (with_ts_clean (Some (Datetime 2024 1 2 10 0 0))
                                (to_row Examples.record_x1)))
                ∈ rows (transform_out Reference.to_datetime
                          (DataFrame_of [Examples.record_x1; Examples.record_x2])))
    by (vm_compute; left).
  split; [exact H|]. split; [exact Hin|].
  exact (transform_keeps_the_values Reference.to_datetime _ _ _ _ H Hin).
Defined.

(** X6.  The Transformer's totals account for every row.  The rows of the
    input are those of the output plus what the four steps counted, plus
    the rows with a missing amount that the negative-amount step dropped
    without counting them, which it does whenever it finds a negative
    amount; the null-amount step then counts nothing.  The line with the
    number of records left is always printed, the line with the number
    removed exactly when that number is positive. *)
Theorem transform_accounts_for_every_row
    (to_datetime : list (option string) → nat → option datetime)
    (df out : DataFrame) :
  (transform_data to_datetime df).2 = Return out →
  let log := trace (transform_data to_datetime df) in
  let uncounted :=
    if (0 <? negative_amounts to_datetime df)%nat
    then count_rows (λ r, isna (amount r)) (after_timestamps to_datetime df)
    else 0 in
  len df = invalid_ts to_datetime df + negative_amounts to_datetime df
           + uncounted + null_amounts to_datetime df
           + duplicates to_datetime df + len out
  ∧ (0 < negative_amounts to_datetime df → null_amounts to_datetime df = 0)
  ∧ (∀ n, Say (Transformed n) ∈ log ↔ n = len out)
  ∧ (∀ n, Say (RemovedQuality n) ∈ log ↔ n = len df - len out ∧ 0 < n).
Proof.
  intros [Hs ->]%transform_data_Return log uncounted. subst log uncounted.
  unfold trace. rewrite transform_data_run by done. cbn [fst].
  pose proof (steps_remove to_datetime df) as (H1 & H2 & H3 & H4 & H5).
  pose proof (null_amounts_after_negative to_datetime df) as Hn.
  split; [|split; [|split]].
  - destruct (0 <? negative_amounts to_datetime df)%nat eqn:E; [lia|].
    apply Nat.ltb_ge in E. lia.
  - intros Hpos. apply Nat.ltb_lt in Hpos. by rewrite Hpos in Hn.
  - intros n. unfold transform_log.
    repeat setoid_rewrite elem_of_app.
    repeat setoid_rewrite elem_of_said_if.
    repeat setoid_rewrite list_elem_of_singleton.
    split.
    + intros [Hm|[Hm|[Hm|[Hm|[Hm|[Hm|Hm]]]]]];
        first [ discriminate Hm
              | by injection Hm as ->
              | destruct Hm as [? Hm]; discriminate Hm ].
    + intros ->. auto 10.
  - intros n. unfold transform_log.
    repeat setoid_rewrite elem_of_app.
    repeat setoid_rewrite elem_of_said_if.
    repeat setoid_rewrite list_elem_of_singleton.
    split.
    + intros [Hm|[Hm|[Hm|[Hm|[Hm|[Hm|Hm]]]]]];
        first [ discriminate Hm
              | destruct Hm as [Hp Hm];
                first [ discriminate Hm
                      | injection Hm as ->; split; [done|by apply Nat.ltb_lt] ] ].
    + intros [-> Hp%Nat.ltb_lt]. auto 10.
Qed.

Lemma transform_accounts_for_every_row_witness :
  (transform_data Reference.to_datetime Examples.mixed).2 = Return Examples.mixed_out
  ∧ let log := trace (transform_data Reference.to_datetime Examples.mixed) in
    let uncounted :=
      if (0 <? negative_amounts Reference.to_datetime Examples.mixed)%nat
      then count_rows (λ r, isna (amount r))
             (after_timestamps Reference.to_datetime Examples.mixed)
      else 0 in
    len Examples.mixed
    = invalid_ts Reference.to_datetime Examples.mixed
      + negative_amounts Reference.to_datetime Examples.mixed
      + uncounted + null_amounts Reference.to_datetime Examples.mixed
      + duplicates Reference.to_datetime Examples.mixed + len Examples.mixed_out
    ∧ (0 < negative_amounts Reference.to_datetime Examples.mixed
       → null_amounts Reference.to_datetime Examples.mixed = 0)
    ∧ (∀ n, Say (Transformed n) ∈ log ↔ n = len Examples.mixed_out)
    ∧ (∀ n, Say (RemovedQuality n) ∈ log
            ↔ n = len Examples.mixed - len Examples.mixed_out ∧ 0 < n).
Proof.
  assert (H : (transform_data Reference.to_datetime Examples.mixed).2
              = Return Examples.mixed_out) by (vm_compute; reflexivity).
  split; [exact H|].
  exact (transform_accounts_for_every_row
           Reference.to_datetime Examples.mixed Examples.mixed_out H).
Defined.

Lemma count_rows_filter_rows (p q : row → bool) (df : DataFrame) :
  (∀ r, p r = true → q r = false) →
  count_rows q (filter_rows p df) = 0.
Proof.
  intros H. unfold count_rows, filter_rows. cbn [rows].
  apply (count_none (λ ir : nat * row, q ir.2)).
  apply Forall_forall. intros [i r] [Hp _]%list_elem_of_filter.
  apply H. by apply Is_true_true_1.
Qed.

Lemma filter_rows_idemp (p : row → bool) (df : DataFrame) :
  filter_rows p (filter_rows p df) = filter_rows p df.
Proof.
  unfold filter_rows. cbn [rows columns]. f_equal.
  apply (filter_all (λ ir : nat * row, p ir.2)).
  apply Forall_forall. intros [i r] [Hp _]%list_elem_of_filter.
  by apply Is_true_true_1.
Qed.

(** X7.  Each of the four cleaning steps returns a frame, and finds nothing
    more to remove in the frame it returned: run on its own result, it
    prints nothing and returns the result unchanged. *)
Theorem cleaning_steps_are_idempotent (df : DataFrame) :
  (∃ log out, drop_invalid_timestamps df = (log, Return out)
              ∧ drop_invalid_timestamps out = ([], Return out))
  ∧ (∃ log out, remove_negative_amounts df = (log, Return out)
                ∧ remove_negative_amounts out = ([], Return out))
  ∧ (∃ log out, remove_null_amounts df = (log, Return out)
                ∧ remove_null_amounts out = ([], Return out))
  ∧ (∃ log out, remove_duplicate_order_ids df = (log, Return out)
                ∧ remove_duplicate_order_ids out = ([], Return out)).
Proof.
  split; [|split; [|split]]; eexists _, _.
  - split; [apply drop_invalid_timestamps_run|].
    rewrite drop_invalid_timestamps_run, filter_rows_idemp.
    rewrite count_rows_filter_rows; [done|].
    intros r. unfold notna. by destruct (isna _).
  - split; [apply remove_negative_amounts_run|].
    rewrite remove_negative_amounts_run.
    destruct (0 <? count_rows (λ r, lt0 (amount r)) df)%nat eqn:E.
    + rewrite count_rows_filter_rows; [done|].
      intros r Hge. rewrite lt0_ge0 by by apply ge0_notna. by rewrite Hge.
    + by rewrite E.
  - split; [apply remove_null_amounts_run|].
    rewrite remove_null_amounts_run, filter_rows_idemp.
    rewrite count_rows_filter_rows; [done|].
    intros r. unfold notna. by destruct (isna _).
  - split; [apply remove_duplicate_order_ids_run|].
    rewrite remove_duplicate_order_ids_run. cbn [rows columns].
    assert (Hc : count_duplicated [] (drop_duplicates [] (rows df)) = 0).
    { apply count_duplicated_NoDup; [apply drop_duplicates_NoDup|].
      by intros ir _ ?%elem_of_nil. }
    rewrite Hc, drop_duplicates_none by done. done.
Qed.

(** ** Validate *)

(** X8.  Validation of the frame built from decoded records either passes
    in silence or ends the run with status 1.  It fails exactly when some
    required field is a key of none of the records, and the message it
    prints then lists those fields and no others. *)
Theorem validate_schema_reports_the_missing_fields
    (rs : list record) (s : gset string) :
  let m := validate_schema (DataFrame_of rs) in
  let lacking c := c ∈ required_cols ∧ ∀ r, r ∈ rs → c ∉ keys r in
  (m = ([], Return true) ∨ m.2 = Exit 1%Z)
  ∧ (m.2 = Exit 1%Z ↔ ∃ c, lacking c)
  ∧ (Say (ErrMissingColumns s) ∈ trace m
     ↔ (∃ c, lacking c) ∧ ∀ c, c ∈ s ↔ lacking c).
Proof.
  intros m lacking. subst m.
  assert (Hmem : ∀ c, c ∈ list_to_set (C:=gset string) required_cols
                        ∖ columns (DataFrame_of rs) ↔ lacking c).
  { intros c. rewrite elem_of_difference, elem_of_list_to_set, columns_DataFrame_of.
    rewrite elem_of_union_list. unfold lacking. split.
    - intros [Hc Hn]. split; [done|]. intros r Hr Hk. apply Hn.
      exists (keys r). split; [|done]. by apply list_elem_of_fmap_2.
    - intros [Hc Hn]. split; [done|].
      intros (X & (r & -> & Hr)%list_elem_of_fmap & Hk). by apply (Hn r). }
  destruct (decide (schema_ok (DataFrame_of rs))) as [Hs|Hs].
  - rewrite validate_schema_ok by done. split; [by left|].
    assert (Hno : ¬ ∃ c, lacking c).
    { intros [c Hc]. apply Hmem in Hc. apply elem_of_difference in Hc as [Hc Hn].
      by apply Hn, Hs. }
    split; [split; [done|by intros ?]|].
    split; [by intros ?%elem_of_nil|by intros [? _]].
  - rewrite validate_schema_missing by done. split; [by right|].
    assert (Hyes : ∃ c, lacking c).
    { destruct (decide (list_to_set (C:=gset string) required_cols
                          ∖ columns (DataFrame_of rs) = ∅)) as [E|E].
      - exfalso. apply Hs. intros x Hx.
        destruct (decide (x ∈ columns (DataFrame_of rs))) as [|Hn]; [done|].
        assert (Hd : x ∈ list_to_set (C:=gset string) required_cols
                         ∖ columns (DataFrame_of rs))
          by by apply elem_of_difference.
        rewrite E in Hd. by apply not_elem_of_empty in Hd.
      - apply set_choose_L in E as [c Hc]. exists c. by apply Hmem. }
    split; [done|]. unfold trace. cbn [fst].
    rewrite list_elem_of_singleton. split.
    + intros [= ->]. split; [done|]. exact Hmem.
    + intros [_ Hs']. do 2 f_equal. apply set_eq. intros c.
      by rewrite Hs', Hmem.
Qed.

(** ** Aggregate *)

(** X9.  The analytics preview never stops the run: whatever the engine
    does, [run_analytics] returns.  It connects first; the category query
    is sent exactly when the connection opens, the summary query exactly
    when, besides, the category query succeeded; no other query is sent,
    every table printed is the result of one of the two, and the warning is
    printed exactly when the connection or one of the queries sent fails. *)
Theorem preview_never_stops_the_run
    (connects : bool) (engine : query → option table) (df : DataFrame) :
  let m := run_analytics connects engine df in
  m.2 = Return ()
  ∧ (Exec preview_category_query ∈ trace m ↔ connects = true)
  ∧ (Exec preview_summary_query ∈ trace m
     ↔ connects = true ∧ is_Some (engine preview_category_query))
  ∧ (Say WarnAnalyticsFailed ∈ trace m
     ↔ connects = false ∨ engine preview_category_query = None
       ∨ (is_Some (engine preview_category_query)
          ∧ engine preview_summary_query = None))
  ∧ (∀ q, Exec q ∈ trace m → q = preview_category_query ∨ q = preview_summary_query)
  ∧ (∀ t, Say (Result t) ∈ trace m →
       engine preview_category_query = Some t
       ∨ engine preview_summary_query = Some t).
Proof.
  intros m. subst m. split; [apply run_analytics_returns|].
  unfold trace, run_analytics, connect, execute.
  destruct connects.
  - destruct (engine preview_category_query) as [t1|] eqn:E1.
    + destruct (engine preview_summary_query) as [t2|] eqn:E2; run_io.
      * split; [split; [done|intros _; trace_mem]|].
        split; [split; [done|intros _; trace_mem]|].
        split; [split; [intros H; trace_cases H|intros [?|[?|[_ ?]]]; done]|].
        split; [intros q H; trace_cases H; injection H as ->; auto|].
        intros t H; trace_cases H; injection H as ->; auto.
      * split; [split; [done|intros _; trace_mem]|].
        split; [split; [done|intros _; trace_mem]|].
        split; [split; [auto|intros _; trace_mem]|].
        split; [intros q H; trace_cases H; injection H as ->; auto|].
        intros t H; trace_cases H; injection H as ->; auto.
    + run_io.
      split; [split; [done|intros _; trace_mem]|].
      split; [split; [intros H; trace_cases H|by intros [_ [? ?]]]|].
      split; [split; [auto|intros _; trace_mem]|].
      split; [intros q H; trace_cases H; injection H as ->; auto|].
      intros t H; trace_cases H.
  - run_io.
    split; [split; [intros H; trace_cases H|done]|].
    split; [split; [intros H; trace_cases H|by intros [? _]]|].
    split; [split; [auto|intros _; trace_mem]|].
    split; [intros q H; trace_cases H|].
    intros t H; trace_cases H.
Qed.

(** X10.  The standalone analytics script ends with status 0 exactly when
    the Parquet file exists and the connection opens, and with status 1
    otherwise, before any query is sent.  When it gets that far it sends
    its three queries whatever their outcomes, reports each failure under
    the name of its query, and prints the closing line, which is printed in
    no other case. *)
Theorem analytics_script_outcome
    (parquet_exists connects : bool) (engine : query → option table) :
  let m := analytics connects engine parquet_exists in
  (exit_status m = 0%Z ∨ exit_status m = 1%Z)
  ∧ (exit_status m = 0%Z ↔ parquet_exists = true ∧ connects = true)
  ∧ (Say AnalysisComplete ∈ trace m ↔ exit_status m = 0%Z)
  ∧ (∀ q, Exec q ∈ trace m
          ↔ exit_status m = 0%Z
            ∧ q ∈ [category_query; daily_query; summary_query])
  ∧ (∀ name, Say (ErrQuery name) ∈ trace m
             ↔ exit_status m = 0%Z
               ∧ (name = "category" ∧ engine category_query = None
                  ∨ name = "daily revenue" ∧ engine daily_query = None
                  ∨ name = "summary" ∧ engine summary_query = None))
  ∧ (parquet_exists = false → trace m = [Say ErrParquetNotFound])
  ∧ (parquet_exists = true → connects = false → trace m = [Say ErrConnecting]).
Proof.
  intros m. subst m.
  destruct parquet_exists; [destruct connects|].
  - unfold exit_status, trace. rewrite analytics_run. cbn [fst snd]. unfold attempt.
    split; [auto|]. split; [done|].
    split; [split; [done|]; intros _;
            repeat (rewrite elem_of_app || rewrite elem_of_cons); auto 20|].
    split; [|split; [|done]].
    + intros q. split.
      * intros H. split; [done|].
        destruct (engine category_query), (engine daily_query),
          (engine summary_query); cbn [app] in H;
          trace_cases H; injection H as ->; trace_mem.
      * intros [_ H]. trace_cases H; subst q;
          repeat (rewrite elem_of_app || rewrite elem_of_cons); auto 20.
    + intros name. split.
      * intros H. split; [done|].
        destruct (engine category_query), (engine daily_query),
          (engine summary_query); cbn [app] in H;
          trace_cases H; injection H as ->; auto.
      * intros [_ [[-> ->]|[[-> ->]|[-> ->]]]];
          repeat (rewrite elem_of_app || rewrite elem_of_cons); auto 20.
  - unfold exit_status, trace, analytics, connect. run_io.
    split; [auto|]. split; [split; [done|by intros [_ ?]]|].
    split; [split; [intros H; trace_cases H|done]|].
    split; [intros q; split; [intros H; trace_cases H|by intros [? _]]|].
    split; [intros name; split; [intros H; trace_cases H|by intros [? _]]|].
    done.
  - unfold exit_status, trace, analytics. run_io.
    split; [auto|]. split; [split; [done|by intros [? _]]|].
    split; [split; [intros H; trace_cases H|done]|].
    split; [intros q; split; [intros H; trace_cases H|by intros [? _]]|].
    split; [intros name; split; [intros H; trace_cases H|by intros [? _]]|].
    done.
Qed.

(** ** The run *)





Section RunMore.
Context (json_loads : string → option json).
Context (foreign_frame : list json → outcome DataFrame).
Context (to_datetime : list (option string) → nat → option datetime).




End RunMore.



(** ** The generator and the pipeline *)

Lemma omap_fmap_Some {A B C} (f : A → option B) (g : C → B) (l : list A) (l' : list C) :
  f <$> l = (Some ∘ g) <$> l' → omap f l = g <$> l'.
Proof.
  revert l'. induction l as [|a l IH]; intros [|c l'] H; try done.
  simpl in H. injection H as Ha H. simpl. rewrite Ha. simpl. f_equal. by apply IH.
Qed.

Lemma warnings_none (json_loads : string → option json) start lines :
  malformed_count json_loads lines = 0 → warnings json_loads start lines = [].
Proof.
  unfold malformed_count. revert start.
  induction lines as [|line rest IH]; intros start; [done|].
  rewrite filter_cons. simpl. destruct (malformed json_loads line); [done|].
  simpl. apply IH.
Qed.

Lemma keys_record_of d c : c ∈ required_cols → c ∈ keys (record_of d).
Proof.
  unfold keys, key, record_of, required_cols. simpl.
  rewrite !elem_of_union, !elem_of_singleton, !elem_of_cons.
  intros [->|[->|[->|[->|[->|?%elem_of_nil]]]]]; tauto.
Qed.

Section EntriesFacts.
Context (json_loads : string → option json).
Context (foreign_frame : list json → outcome DataFrame).
Context (to_datetime : list (option string) → nat → option datetime).
Implicit Types (ds : list entry) (lines : list string).

Lemma schema_ok_entries ds :
  ds ≠ [] → schema_ok (DataFrame_of (record_of <$> ds)).
Proof.
  intros Hne. apply schema_ok_DataFrame_of. intros c Hc.
  destruct ds as [|d ds]; [done|].
  exists (record_of d). split; [left|by apply keys_record_of].
Qed.

Lemma decoded_entries ds lines :
  json_loads <$> lines = (Some ∘ Order ∘ record_of) <$> ds →
  omap json_loads lines = Order <$> (record_of <$> ds).
Proof.
  intros H. rewrite <- list_fmap_compose.
  by apply (omap_fmap_Some json_loads (Order ∘ record_of)).
Qed.

Lemma extract_entries ds lines :
  ds ≠ [] →
  json_loads <$> lines = (Some ∘ Order ∘ record_of) <$> ds →
  extract_data json_loads foreign_frame (Content lines)
  = ([Say (Phase "EXTRACT PHASE"); Say (Extracted (length ds))],
     Return (DataFrame_of (record_of <$> ds))).
Proof.
  intros Hne H. pose proof (f_equal length H) as Hlen.
  rewrite !length_fmap in Hlen.
  apply decoded_entries in H. rewrite (extract_data_content _ _ _ _ H).
  pose proof (length_records json_loads lines) as Hl.
  rewrite H, !length_fmap in Hl.
  assert (Hm : malformed_count json_loads lines = 0) by lia.
  rewrite Hm, warnings_none by done.
  destruct ds as [|d ds]; [done|]. by rewrite length_fmap.
Qed.

Lemma annotated_entries ds :
  annotated to_datetime (DataFrame_of (record_of <$> ds))
  = imap (λ i d, (i, with_ts_clean
                       (to_datetime ((Some ∘ e_timestamp) <$> ds) i)
                       (to_row (record_of d)))) ds.
Proof.
  unfold annotated, set_ts_clean, DataFrame_of. cbn [rows].
  assert (E : (λ ir : nat * row, timestamp ir.2)
                <$> imap (λ i r, (i, to_row r)) (record_of <$> ds)
              = (Some ∘ e_timestamp) <$> ds).
  { apply list_eq. intros j.
    rewrite !list_lookup_fmap, list_lookup_imap, list_lookup_fmap.
    by destruct (ds !! j). }
  rewrite E. apply list_eq. intros j.
  rewrite !list_lookup_imap, list_lookup_fmap. by destruct (ds !! j).
Qed.

(** Entries whose timestamps all parse, whose amounts are not negative and
    whose ids differ go through the Transformer untouched. *)
Lemma transform_entries ds :
  ds ≠ [] →
  (∀ i, i < length ds →
     is_Some (to_datetime ((Some ∘ e_timestamp) <$> ds) i)) →
  Forall (λ d, (0 <= e_amount d)%Q) ds →
  NoDup (e_order_id <$> ds) →
  transform_data to_datetime (DataFrame_of (record_of <$> ds))
  = ([Say (Phase "TRANSFORM PHASE"); Say (Transformed (length ds))],
     Return (transform_out to_datetime (DataFrame_of (record_of <$> ds))))
  ∧ rows (transform_out to_datetime (DataFrame_of (record_of <$> ds)))
    = imap (λ i d, (i, clean_row d (to_datetime ((Some ∘ e_timestamp) <$> ds) i)))
           ds.
Proof.
  intros Hne Hts Ham Hid.
  pose proof (schema_ok_entries ds Hne) as Hs.
  assert (Hq : Forall (λ ir : nat * row, quality ir.2 = true)
                 (annotated to_datetime (DataFrame_of (record_of <$> ds)))).
  { rewrite annotated_entries. apply Forall_forall.
    intros ir (i & d & -> & Hd)%elem_of_lookup_imap. simpl.
    unfold quality. simpl. apply andb_true_iff. split.
    - destruct (Hts i) as [t ->]; [by eapply lookup_lt_Some|done].
    - apply Qle_bool_iff. eapply Forall_forall in Ham; [exact Ham|].
      by eapply list_elem_of_lookup_2. }
  assert (Hnd : NoDup (order_ids (DataFrame_of (record_of <$> ds)))).
  { unfold order_ids, DataFrame_of. cbn [rows].
    assert (E : (λ ir : nat * row, order_id ir.2)
                  <$> imap (λ i r, (i, to_row r)) (record_of <$> ds)
                = Key <$> (e_order_id <$> ds)).
    { apply list_eq. intros j.
      rewrite !list_lookup_fmap, list_lookup_imap, list_lookup_fmap.
      by destruct (ds !! j). }
    rewrite E. apply NoDup_fmap_2; [|done]. by intros ?? [= ->]. }
  destruct (clean_input_log to_datetime _ Hq Hnd) as [Hrows Hlog].
  split.
  - rewrite transform_data_run, Hlog by done.
    unfold len, DataFrame_of. cbn [rows]. by rewrite length_imap, length_fmap.
  - rewrite Hrows, annotated_entries, fmap_imap. apply imap_ext.
    intros i d _. reflexivity.
Qed.

End EntriesFacts.

(** X12.  What the generator writes, the Extractor reads back whole.  When
    the script reports success it has written [NUM_ORDERS] lines and ends
    with status 0.  If decoding the lines gives back the entries written,
    the Extractor skips no line and prints no warning, returns one row for
    each order, row [i] being the order made in iteration [i], and the frame
    passes schema validation. *)
Theorem generated_file_is_read_back_whole
    {instant : Type} (now : instant) (minus_minutes : instant → nat → instant)
    (isoformat : instant → string) (uuid4 : nat → string)
    (randint : nat → Z → Z → Z) (uniform : nat → Q → Q → Q)
    (round : Q → nat → Q) (choice : nat → list string → string)
    (json_dumps : entry → string) (makedirs_ok writable : bool)
    (json_loads : string → option json)
    (foreign_frame : list json → outcome DataFrame) (lines : list string) :
  let entries :=
    data now minus_minutes isoformat uuid4 randint uniform round choice in
  let run :=
    generate_orders now minus_minutes isoformat uuid4 randint uniform round
      choice json_dumps makedirs_ok writable in
  raw_orders run = Some lines →
  json_loads <$> lines = (Some ∘ Order ∘ record_of) <$> entries →
  status run = 0%Z
  ∧ console run = [Generated NUM_ORDERS]
  ∧ length lines = NUM_ORDERS
  ∧ extract_data json_loads foreign_frame (Content lines)
    = ([Say (Phase "EXTRACT PHASE"); Say (Extracted NUM_ORDERS)],
       Return (DataFrame_of (record_of <$> entries)))
  ∧ validate_schema (DataFrame_of (record_of <$> entries)) = ([], Return true)
  ∧ ∀ i, i < NUM_ORDERS →
      ∃ d, d = make_entry minus_minutes isoformat uuid4 randint uniform round
                 choice now i
           ∧ lines !! i = Some (json_dumps d +:+ newline)
           ∧ rows (DataFrame_of (record_of <$> entries)) !! i
             = Some (i, to_row (record_of d)).
Proof.
  intros entries run Hrun Hjson.
  assert (Hlen : length entries = NUM_ORDERS)
    by (unfold entries, data; by rewrite length_fmap, length_seq).
  assert (Hne : entries ≠ []) by (intros E; by rewrite E in Hlen).
  unfold run, generate_orders in *.
  destruct makedirs_ok; [|done]. destruct writable; [|done].
  simpl in Hrun. injection Hrun as <-.
  split; [done|]. split; [done|].
  split; [unfold written_lines; by rewrite length_fmap|].
  split; [rewrite <- Hlen; by apply extract_entries|].
  split; [by apply validate_schema_ok, schema_ok_entries|].
  intros i Hi. eexists. split; [reflexivity|].
  assert (Hd : entries !! i
               = Some (make_entry minus_minutes isoformat uuid4 randint uniform
                         round choice now i)).
  { unfold entries, data. by rewrite list_lookup_fmap, lookup_seq_lt. }
  split.
  - unfold written_lines. fold entries. by rewrite list_lookup_fmap, Hd.
  - unfold DataFrame_of. cbn [rows].
    by rewrite list_lookup_imap, list_lookup_fmap, Hd.
Qed.

Lemma generated_file_is_read_back_whole_witness :
  let entries := Sample.data in
  let run :=
    generate_orders Sample.now Sample.minus_minutes Sample.isoformat
      Sample.uuid4 Sample.randint Sample.uniform Sample.round Sample.choice
      Sample.json_dumps true true in
  raw_orders run = Some Sample.written_lines
  ∧ Reference.json_loads <$> Sample.written_lines
    = (Some ∘ Order ∘ record_of) <$> entries
  ∧ status run = 0%Z
  ∧ console run = [Generated NUM_ORDERS]
  ∧ length Sample.written_lines = NUM_ORDERS
  ∧ extract_data Reference.json_loads Examples.no_frame
      (Content Sample.written_lines)
    = ([Say (Phase "EXTRACT PHASE"); Say (Extracted NUM_ORDERS)],
       Return (DataFrame_of (record_of <$> entries)))
  ∧ validate_schema (DataFrame_of (record_of <$> entries)) = ([], Return true)
  ∧ ∀ i, i < NUM_ORDERS →
      ∃ d, d = make_entry Sample.minus_minutes Sample.isoformat Sample.uuid4
                 Sample.randint Sample.uniform Sample.round Sample.choice
                 Sample.now i
           ∧ Sample.written_lines !! i = Some (Sample.json_dumps d +:+ newline)
           ∧ rows (DataFrame_of (record_of <$> entries)) !! i
             = Some (i, to_row (record_of d)).
Proof.
  assert (H1 : raw_orders
                 (generate_orders Sample.now Sample.minus_minutes Sample.isoformat
                    Sample.uuid4 Sample.randint Sample.uniform Sample.round
                    Sample.choice Sample.json_dumps true true)
               = Some Sample.written_lines) by reflexivity.
  assert (H2 : Reference.json_loads <$> Sample.written_lines
               = (Some ∘ Order ∘ record_of) <$> Sample.data)
    by (vm_compute; reflexivity).
  split; [exact H1|]. split; [exact H2|].
  exact (generated_file_is_read_back_whole
           Sample.now Sample.minus_minutes Sample.isoformat Sample.uuid4
           Sample.randint Sample.uniform Sample.round Sample.choice
           Sample.json_dumps true true Reference.json_loads Examples.no_frame
           Sample.written_lines H1 H2).
Defined.

(** X13.  Every generated order reaches the clean dataset.  Let the input
    file hold what the generator wrote, and let decoding give back the
    entries.  If every timestamp written parses, no amount drawn is
    negative and no two ids drawn are equal, the Transformer prints no
    removal and returns [NUM_ORDERS] rows, row [i] holding the id, user,
    category and amount of the order made in iteration [i] with its parsed
    timestamp and date; the run then ends with status 0 exactly when the
    Parquet file can be written. *)
Theorem every_generated_order_reaches_the_output
    {instant : Type} (now : instant) (minus_minutes : instant → nat → instant)
    (isoformat : instant → string) (uuid4 : nat → string)
    (randint : nat → Z → Z → Z) (uniform : nat → Q → Q → Q)
    (round : Q → nat → Q) (choice : nat → list string → string)
    (json_dumps : entry → string)
    (json_loads : string → option json)
    (foreign_frame : list json → outcome DataFrame)
    (to_datetime : list (option string) → nat → option datetime)
    (w : world) :
  let entries :=
    data now minus_minutes isoformat uuid4 randint uniform round choice in
  let lines :=
    written_lines now minus_minutes isoformat uuid4 randint uniform round
      choice json_dumps in
  let parsed := to_datetime ((Some ∘ e_timestamp) <$> entries) in
  input_file w = Content lines →
  json_loads <$> lines = (Some ∘ Order ∘ record_of) <$> entries →
  (∀ i, i < NUM_ORDERS → is_Some (parsed i)) →
  Forall (λ d, (0 <= e_amount d)%Q) entries →
  NoDup (e_order_id <$> entries) →
  ∃ out,
    transform_data to_datetime (DataFrame_of (record_of <$> entries))
    = ([Say (Phase "TRANSFORM PHASE"); Say (Transformed NUM_ORDERS)], Return out)
    ∧ rows out = imap (λ i d, (i, clean_row d (parsed i))) entries
    ∧ len out = NUM_ORDERS
    ∧ (exit_status (main json_loads foreign_frame to_datetime w) = 0%Z
       ↔ is_Some (to_parquet w out)).
Proof.
  intros entries lines parsed Hfile Hjson Hts Ham Hid.
  assert (Hlen : length entries = NUM_ORDERS)
    by (unfold entries, data; by rewrite length_fmap, length_seq).
  assert (Hne : entries ≠ []) by (intros E; by rewrite E in Hlen).
  rewrite <- Hlen in Hts.
  destruct (transform_entries to_datetime entries Hne Hts Ham Hid) as [Hrun Hrows].
  exists (transform_out to_datetime (DataFrame_of (record_of <$> entries))).
  split; [by rewrite <- Hlen|]. split; [exact Hrows|].
  split; [unfold len; by rewrite Hrows, length_imap|].
  pose proof (decoded_entries json_loads _ _ Hjson) as Hdec.
  assert (Hrec : records json_loads w = record_of <$> entries).
  { unfold records, decoded. rewrite Hfile. cbn [lines_read].
    by rewrite Hdec, omap_order_of_fmap. }
  rewrite main_status, Hfile, Hrec.
  - destruct (record_of <$> entries) as [|r rs] eqn:E.
    { by destruct entries. }
    rewrite <- E. rewrite decide_True by by apply schema_ok_entries.
    destruct (to_parquet w _) as [kb|]; split; done.
  - unfold in_data_model, decoded. rewrite Hfile. cbn [lines_read].
    rewrite Hdec. apply Forall_fmap, Forall_forall. intros r _. by eexists.
Qed.

Lemma every_generated_order_reaches_the_output_witness :
  let w := World (Content Sample.written_lines) (λ _, Some (7 # 2)%Q) true
                 (λ _, Some []) in
  let parsed := Reference.to_datetime ((Some ∘ e_timestamp) <$> Sample.data) in
  input_file w = Content Sample.written_lines
  ∧ Reference.json_loads <$> Sample.written_lines
    = (Some ∘ Order ∘ record_of) <$> Sample.data
  ∧ (∀ i, i < NUM_ORDERS → is_Some (parsed i))
  ∧ Forall (λ d, (0 <= e_amount d)%Q) Sample.data
  ∧ NoDup (e_order_id <$> Sample.data)
  ∧ ∃ out,
      transform_data Reference.to_datetime
        (DataFrame_of (record_of <$> Sample.data))
      = ([Say (Phase "TRANSFORM PHASE"); Say (Transformed NUM_ORDERS)], Return out)
      ∧ rows out = imap (λ i d, (i, clean_row d (parsed i))) Sample.data
      ∧ len out = NUM_ORDERS
      ∧ (exit_status (main Reference.json_loads Examples.no_frame
                        Reference.to_datetime w) = 0%Z
         ↔ is_Some (to_parquet w out)).
Proof.
  intros w parsed.
  assert (H1 : input_file w = Content Sample.written_lines) by reflexivity.
  assert (H2 : Reference.json_loads <$> Sample.written_lines
               = (Some ∘ Order ∘ record_of) <$> Sample.data)
    by (vm_compute; reflexivity).
  assert (H3 : ∀ i, i < NUM_ORDERS → is_Some (parsed i)).
  { assert (H : Forall (λ i, is_Some (parsed i)) (seq 0 NUM_ORDERS))
      by (apply (bool_decide_unpack _); vm_compute; exact I).
    intros i Hi. eapply Forall_forall in H; [exact H|].
    apply elem_of_seq. lia. }
  assert (H4 : Forall (λ d, (0 <= e_amount d)%Q) Sample.data).
  { assert (H : Forall (λ d, Qle_bool 0 (e_amount d)) Sample.data)
      by (apply (bool_decide_unpack _); vm_compute; exact I).
    eapply Forall_impl; [exact H|]. intros d Hd.
    by apply Qle_bool_iff, Is_true_true_1. }
  assert (H5 : NoDup (e_order_id <$> Sample.data))
    by (apply (bool_decide_unpack _); vm_compute; exact I).
  split; [exact H1|]. split; [exact H2|]. split; [exact H3|].
  split; [exact H4|]. split; [exact H5|].
  exact (every_generated_order_reaches_the_output
           Sample.now Sample.minus_minutes Sample.isoformat Sample.uuid4
           Sample.randint Sample.uniform Sample.round Sample.choice
           Sample.json_dumps Reference.json_loads Examples.no_frame
           Reference.to_datetime w H1 H2 H3 H4 H5).
Defined.

(** ** When nothing is left *)


